(** * landing-backend: the form-submission backend [backend.js]

    A shallow embedding of [src/backend.js] and the properties of its
    field mapper, token store, sheet appender and request handler.

    Modelling conventions.
    - A JavaScript string is a [string]: a sequence of code units below 256
      (Latin-1).  Text outside that range is outside the model.
    - A JavaScript number is an integer ([VNum]) or [VNaN].  Integers are
      exact in a double below 2^53, which covers epoch milliseconds and the
      lengths the program handles; fractions and infinities are outside the
      model.
    - Property reads follow the prototype chain as far as [Object.prototype],
      which every non-null value inherits from.  The methods that arrays,
      strings, numbers and booleans inherit from their own prototypes are not
      tabulated: the program reads from its inputs only own properties and
      the fixed names that appear in this file.
    - An object is the list of its own enumerable properties in the order
      [Object.keys] and [for ... in] enumerate them; keys are unique.
    - Console output is not modelled, except that a property read made to
      build a log line can throw and is therefore kept. *)

From Stdlib Require Import String Ascii List ZArith NArith Lia Bool DecimalString.
Import ListNotations.
Set Warnings "-register-all".
Open Scope string_scope.
Open Scope Z_scope.

(* ================================================================== *)
(** * Strings *)
(* ================================================================== *)

Definition dquote : ascii := "034"%char.
Definition newline : ascii := "010"%char.
Definition NL : string := String newline "".

Definition in_range (lo hi : N) (c : ascii) : bool :=
  ((lo <=? N_of_ascii c) && (N_of_ascii c <=? hi))%N.

(** [String.prototype.toLowerCase] on one code unit: A-Z and the Latin-1
    capitals move 32 places up. *)
Definition lower_char (c : ascii) : ascii :=
  if in_range 65 90 c || in_range 192 214 c || in_range 216 222 c
  then ascii_of_N (N_of_ascii c + 32)
  else c.

Fixpoint toLowerCase (s : string) : string :=
  match s with
  | EmptyString => EmptyString
  | String c r => String (lower_char c) (toLowerCase r)
  end.

(** White space as [trim] sees it: TAB, LF, VT, FF, CR, SPACE, NBSP. *)
Definition is_space (c : ascii) : bool :=
  in_range 9 13 c || in_range 32 32 c || in_range 160 160 c.

Fixpoint trimStart (s : string) : string :=
  match s with
  | EmptyString => EmptyString
  | String c r => if is_space c then trimStart r else s
  end.

Fixpoint trimEnd (s : string) : string :=
  match s with
  | EmptyString => EmptyString
  | String c r =>
      match trimEnd r with
      | EmptyString => if is_space c then EmptyString else String c EmptyString
      | r' => String c r'
      end
  end.

Definition trim (s : string) : string := trimEnd (trimStart s).

(** The character class [[a-z0-9]]. *)
Definition is_alnum (c : ascii) : bool :=
  in_range 97 122 c || in_range 48 57 c.

(** [s.replace(/[^a-z0-9]/g, '')] *)
Fixpoint strip_non_alnum (s : string) : string :=
  match s with
  | EmptyString => EmptyString
  | String c r =>
      if is_alnum c then String c (strip_non_alnum r) else strip_non_alnum r
  end.

(** [s.replace(/Q/g, QQ)], where Q is the double-quote character: every
    double quote is doubled. *)
Fixpoint double_quotes (s : string) : string :=
  match s with
  | EmptyString => EmptyString
  | String c r =>
      if Ascii.eqb c dquote
      then String dquote (String dquote (double_quotes r))
      else String c (double_quotes r)
  end.

(** The quoting lambda that the program writes three times (lines 248, 250
    and 292), applied to an already stringified cell: the cell with its
    double quotes doubled, between two double quotes. *)
Definition csv_quote (s : string) : string :=
  String dquote (double_quotes s ++ String dquote EmptyString).

(** [xs.join(sep)] on strings. *)
Definition join (sep : string) (xs : list string) : string :=
  String.concat sep xs.

Definition decimal (n : Z) : string := NilZero.string_of_int (Z.to_int n).
Definition index_key (i : nat) : string := NilZero.string_of_uint (Nat.to_uint i).

Fixpoint chars (s : string) : list string :=
  match s with
  | EmptyString => []
  | String c r => String c EmptyString :: chars r
  end.

(* ================================================================== *)
(** * Values *)
(* ================================================================== *)

Inductive value : Type :=
| VUndefined
| VNull
| VBool (b : bool)
| VNum (n : Z)
| VNaN
| VStr (s : string)
| VArr (elems : list value) (extra : list (string * value))
    (* an array; [extra] holds the named properties assigned to it after
       creation, empty for every array that comes out of JSON *)
| VObj (props : list (string * value))
| VNative (name : string).
    (* the built-in that the prototype chain supplies under [name] *)

(** A thrown JavaScript error; handlers of this program read only
    [e.message]. *)
Inductive error : Type := Error (message : string).

Definition message (e : error) : string := let (m) := e in m.

Inductive result (A : Type) : Type :=
| Ok (a : A)
| Throw (e : error).
Arguments Ok {A} a.
Arguments Throw {A} e.

Definition rbind {A B} (r : result A) (k : A -> result B) : result B :=
  match r with
  | Ok a => k a
  | Throw e => Throw e
  end.

Notation "'let*' x ':=' r 'in' k" := (rbind r (fun x => k))
  (at level 10, x name, r at level 100, k at level 200).

Fixpoint rmap {A B} (f : A -> result B) (l : list A) : result (list B) :=
  match l with
  | [] => Ok []
  | x :: r => let* y := f x in let* ys := rmap f r in Ok (y :: ys)
  end.

Fixpoint assoc {A} (k : string) (l : list (string * A)) : option A :=
  match l with
  | [] => None
  | (k', v) :: r => if String.eqb k' k then Some v else assoc k r
  end.

Definition has_key {A} (k : string) (l : list (string * A)) : bool :=
  existsb (fun p => String.eqb (fst p) k) l.

(** [upsert k v l]: the own properties after [o[k] = v]: the value is
    replaced in place when the key exists, and appended otherwise. *)
Fixpoint upsert {A} (k : string) (v : A) (l : list (string * A)) : list (string * A) :=
  match l with
  | [] => [(k, v)]
  | (k', v') :: r => if String.eqb k' k then (k', v) :: r else (k', v') :: upsert k v r
  end.

(** The array index that the key [k] denotes, when it is below [n]. *)
Definition index_of (k : string) (n : nat) : option nat :=
  find (fun i => String.eqb (index_key i) k) (seq 0 n).

Definition Object_prototype_names : list string :=
  [ "constructor"; "__defineGetter__"; "__defineSetter__"; "hasOwnProperty";
    "__lookupGetter__"; "__lookupSetter__"; "isPrototypeOf";
    "propertyIsEnumerable"; "toString"; "valueOf"; "__proto__";
    "toLocaleString" ].

Definition inherited (k : string) : value :=
  if existsb (String.eqb k) Object_prototype_names then VNative k else VUndefined.

Definition own (v : value) (k : string) : option value :=
  match v with
  | VObj props => assoc k props
  | VArr elems extra =>
      match index_of k (length elems) with
      | Some i => nth_error elems i
      | None =>
          if String.eqb k "length" then Some (VNum (Z.of_nat (length elems)))
          else assoc k extra
      end
  | VStr s =>
      match index_of k (String.length s) with
      | Some i => nth_error (map VStr (chars s)) i
      | None =>
          if String.eqb k "length" then Some (VNum (Z.of_nat (String.length s)))
          else None
      end
  | _ => None
  end.

(** [v[k]] for a receiver that is neither [null] nor [undefined]. *)
Definition get (v : value) (k : string) : value :=
  match own v k with
  | Some x => x
  | None => inherited k
  end.

Definition nullish (v : value) : bool :=
  match v with
  | VUndefined | VNull => true
  | _ => false
  end.

Definition type_name (v : value) : string :=
  match v with
  | VNull => "null"
  | _ => "undefined"
  end.

(** [v.k] and [v[k]]: a TypeError on [null] and [undefined]. *)
Definition prop (v : value) (k : string) : result value :=
  if nullish v
  then Throw (Error ("Cannot read properties of " ++ type_name v ++
                     " (reading '" ++ k ++ "')"))
  else Ok (get v k).

(** [v?.k] *)
Definition opt_prop (v : value) (k : string) : value :=
  if nullish v then VUndefined else get v k.

(** [Object.keys(v)], and the keys [for (let key in v)] visits. *)
Definition own_keys (v : value) : list string :=
  match v with
  | VObj props => map fst props
  | VArr elems extra => map index_key (seq 0 (length elems)) ++ map fst extra
  | VStr s => map index_key (seq 0 (String.length s))
  | _ => []
  end.

Definition Object_keys (v : value) : result (list string) :=
  if nullish v
  then Throw (Error "Cannot convert undefined or null to object")
  else Ok (own_keys v).

(** [o.k = x] in sloppy mode for a name [k] that is not an array index, on
    a receiver that is neither [null] nor [undefined]: a property of an
    object or array is set, an assignment to a primitive is dropped. *)
Definition assign (o : value) (k : string) (x : value) : value :=
  match o with
  | VObj props => VObj (upsert k x props)
  | VArr elems extra => VArr elems (upsert k x extra)
  | _ => o
  end.

Definition truthy (v : value) : bool :=
  match v with
  | VUndefined | VNull | VNaN => false
  | VBool b => b
  | VNum n => negb (n =? 0)
  | VStr s => negb (String.eqb s "")
  | VArr _ _ | VObj _ | VNative _ => true
  end.

(** [a || b] with [b] already evaluated (used where [b] is a literal). *)
Definition js_or (a b : value) : value := if truthy a then a else b.

(** [v === 'text'] *)
Definition is_string (text : string) (v : value) : bool :=
  match v with
  | VStr s => String.eqb s text
  | _ => false
  end.

(** [v !== undefined] *)
Definition defined (v : value) : bool :=
  match v with
  | VUndefined => false
  | _ => true
  end.

(** [String(v)] and [`${v}`].  An object that carries an own [toString]
    property cannot be converted: in a value that came out of JSON that
    property is never callable, and [valueOf] does not yield a primitive. *)
Fixpoint to_string (v : value) : result string :=
  match v with
  | VUndefined => Ok "undefined"
  | VNull => Ok "null"
  | VBool true => Ok "true"
  | VBool false => Ok "false"
  | VNum n => Ok (decimal n)
  | VNaN => Ok "NaN"
  | VStr s => Ok s
  | VArr elems _ =>
      let* parts :=
        (fix each (l : list value) : result (list string) :=
           match l with
           | [] => Ok []
           | x :: r =>
               let* s := (if nullish x then Ok "" else to_string x) in
               let* ss := each r in
               Ok (s :: ss)
           end) elems in
      Ok (join "," parts)
  | VObj props =>
      if has_key "toString" props
      then Throw (Error "Cannot convert object to primitive value")
      else Ok "[object Object]"
  | VNative name => Ok ("function " ++ name ++ "() { [native code] }")
  end.

(** A number that arithmetic produced: an integer, or NaN ([None]).  The
    program computes in doubles; [num_add], [num_sub] and [num_mul] are
    the sum, difference and product of integers, which is what doubles
    give as long as the operands and the result are integers of magnitude
    at most 2^53 (see [representable]). *)
Definition num : Type := option Z.

Definition of_num (n : num) : value :=
  match n with
  | Some z => VNum z
  | None => VNaN
  end.

Definition num_add (a b : num) : num :=
  match a, b with
  | Some x, Some y => Some (x + y)
  | _, _ => None
  end.

Definition num_sub (a b : num) : num :=
  match a, b with
  | Some x, Some y => Some (x - y)
  | _, _ => None
  end.

Definition num_mul (a b : num) : num :=
  match a, b with
  | Some x, Some y => Some (x * y)
  | _, _ => None
  end.

(** [a >= b] and [a > b]: false as soon as one side is NaN. *)
Definition num_ge (a b : num) : bool :=
  match a, b with
  | Some x, Some y => y <=? x
  | _, _ => false
  end.

Definition num_gt (a b : num) : bool :=
  match a, b with
  | Some x, Some y => y <? x
  | _, _ => false
  end.

(** The integers of magnitude at most 2^53: each of them is a double, so
    a sum or product of doubles that is one of them is computed exactly. *)
Definition representable (z : Z) : bool := Z.abs z <=? 2 ^ 53.

(** [now + seconds * 1000] (lines 101 and 128) is computed exactly: the
    lifetime is NaN, or the operands, the product and the sum are
    representable. *)
Definition exact_expiry (now : Z) (seconds : num) : bool :=
  match seconds with
  | None => true
  | Some s =>
      representable now && representable s
      && representable (s * 1000) && representable (now + s * 1000)
  end.

(* ================================================================== *)
(** * JSON.stringify *)
(* ================================================================== *)

Definition backslash : ascii := "092"%char.

Definition hex_digit (n : N) : ascii :=
  match String.get (N.to_nat n) "0123456789abcdef" with
  | Some c => c
  | None => "0"%char
  end.

(** The escape of one code unit inside a JSON string. *)
Definition json_escape (c : ascii) : string :=
  let n := N_of_ascii c in
  if Ascii.eqb c dquote then String backslash (String dquote EmptyString)
  else if Ascii.eqb c backslash then String backslash (String backslash EmptyString)
  else if (n =? 8)%N then String backslash "b"
  else if (n =? 9)%N then String backslash "t"
  else if (n =? 10)%N then String backslash "n"
  else if (n =? 12)%N then String backslash "f"
  else if (n =? 13)%N then String backslash "r"
  else if (n <? 32)%N
       then String backslash "u00" ++
            String (hex_digit (n / 16)) (String (hex_digit (n mod 16)) EmptyString)
  else String c EmptyString.

Fixpoint json_escape_all (s : string) : string :=
  match s with
  | EmptyString => EmptyString
  | String c r => json_escape c ++ json_escape_all r
  end.

Definition json_quote (s : string) : string :=
  String dquote (json_escape_all s ++ String dquote EmptyString).

(** The members of an object or array between their brackets: on one line
    when [gap] is empty, one per line at indentation [inner] otherwise. *)
Definition json_wrap (opening closing gap outer inner : string)
    (members : list string) : string :=
  match members with
  | [] => opening ++ closing
  | _ =>
      if String.eqb gap ""
      then opening ++ join "," members ++ closing
      else opening ++ NL ++ inner ++ join ("," ++ NL ++ inner) members ++
           NL ++ outer ++ closing
  end.

(** The text of a value at indentation [outer]; [None] where the value has
    no JSON text ([undefined] and functions).  A property without text is
    left out of its object; an array element without text becomes [null].
    An own [toJSON] property of a value that came out of JSON is not
    callable and is ignored. *)
Fixpoint json_text (gap outer : string) (v : value) : option string :=
  match v with
  | VUndefined | VNative _ => None
  | VNull | VNaN => Some "null"
  | VBool true => Some "true"
  | VBool false => Some "false"
  | VNum n => Some (decimal n)
  | VStr s => Some (json_quote s)
  | VArr elems _ =>
      let inner := outer ++ gap in
      Some (json_wrap "[" "]" gap outer inner
              ((fix each (l : list value) : list string :=
                  match l with
                  | [] => []
                  | x :: r =>
                      match json_text gap inner x with
                      | Some t => t
                      | None => "null"
                      end :: each r
                  end) elems))
  | VObj props =>
      let inner := outer ++ gap in
      Some (json_wrap "{" "}" gap outer inner
              ((fix each (l : list (string * value)) : list string :=
                  match l with
                  | [] => []
                  | (k, x) :: r =>
                      match json_text gap inner x with
                      | Some t =>
                          (json_quote k ++ ":" ++
                           (if String.eqb gap "" then "" else " ") ++ t) :: each r
                      | None => each r
                      end
                  end) props))
  end.

Fixpoint spaces (k : nat) : string :=
  match k with
  | O => EmptyString
  | S k' => String " "%char (spaces k')
  end.

(** [JSON.stringify(v, null, indent)] for [indent] up to 10; the program
    passes it values that have a JSON text. *)
Definition JSON_stringify (indent : nat) (v : value) : string :=
  match json_text (spaces indent) "" v with
  | Some t => t
  | None => "undefined"
  end.

(* ================================================================== *)
(** * Dates *)
(* ================================================================== *)

(** [n] in decimal, padded with zeros on the left to [width] digits. *)
Fixpoint zeros (k : nat) : string :=
  match k with
  | O => EmptyString
  | S k' => String "0"%char (zeros k')
  end.

Definition pad (width : nat) (n : Z) : string :=
  let d := decimal n in
  zeros (width - String.length d) ++ d.

(** The civil date (year, month, day) of a day count since 1970-01-01 in
    the proleptic Gregorian calendar. *)
Definition civil_from_days (days : Z) : Z * Z * Z :=
  let z := days + 719468 in
  let era := z / 146097 in
  let doe := z - era * 146097 in
  let yoe := (doe - doe / 1460 + doe / 36524 - doe / 146096) / 365 in
  let doy := doe - (365 * yoe + yoe / 4 - yoe / 100) in
  let mp := (5 * doy + 2) / 153 in
  let d := doy - (153 * mp + 2) / 5 + 1 in
  let m := if mp <? 10 then mp + 3 else mp - 9 in
  let y := yoe + era * 400 + (if m <=? 2 then 1 else 0) in
  (y, m, d).

(** [new Date(t).toISOString()] for a time value [t] in milliseconds. *)
Definition toISOString (t : Z) : string :=
  let '(y, m, d) := civil_from_days (t / 86400000) in
  let ms := t mod 86400000 in
  let year :=
    if (0 <=? y) && (y <=? 9999) then pad 4 y
    else (if y <? 0 then "-" else "+") ++ pad 6 (Z.abs y) in
  year ++ "-" ++ pad 2 m ++ "-" ++ pad 2 d ++ "T" ++
  pad 2 (ms / 3600000) ++ ":" ++ pad 2 ((ms / 60000) mod 60) ++ ":" ++
  pad 2 ((ms / 1000) mod 60) ++ "." ++ pad 3 (ms mod 1000) ++ "Z".

(* ================================================================== *)
(** * The process environment, the file system and the network *)
(* ================================================================== *)

(** [process.env]: a variable is a string or is not set. *)
Record process_env : Type := {
  env_ZOHO_REGION : option string;
  env_ZOHO_CLIENT_ID : option string;
  env_ZOHO_CLIENT_SECRET : option string;
  env_ZOHO_GRANT_CODE : option string;
  env_ZOHO_REFRESH_TOKEN : option string;
  env_ZOHO_WORKBOOK_ID : option string;
  env_ZOHO_SHEET_NAME : option string
}.

Definition env_value (o : option string) : value :=
  match o with
  | Some s => VStr s
  | None => VUndefined
  end.

(** The two files of the program (lines 7 and 8). *)
Inductive path : Type := CSV_FILE | TOKENS_FILE.

Inductive fs_op : Type := Read | Write | Append | Unlink.

(** An outbound HTTP call.  [axios_post_params url params] stands for
    [axios.post(url, null, { params })]; in [axios_post_form] the body is
    the list of fields appended to the [URLSearchParams]. *)
Inductive http_request : Type :=
| axios_post_params (url : string) (params : list (string * value))
| axios_get (url : string) (headers : list (string * string))
| axios_post_form (url : string) (form : list (string * string))
                  (headers : list (string * string)).

(** What surrounds one run of the program and is not changed by it:
    the environment variables, the clock, the remote services ([Ok data] is
    a response whose [data] is [data], [Throw] a rejected call), and the
    file operations that the storage refuses. *)
Record environment : Type := {
  vars : process_env;
  clock : nat -> Z;
  respond : http_request -> result value;
  fs_fault : fs_op -> path -> option error
}.

(** What a run changes: the two files ([None]: the file does not exist),
    the number of clock readings taken, and the calls sent so far (oldest
    first). *)
Record world : Type := {
  bookings_csv : option string;
  tokens_json : option string;
  clock_reads : nat;
  sent : list http_request
}.

Definition file (p : path) (w : world) : option string :=
  match p with
  | CSV_FILE => bookings_csv w
  | TOKENS_FILE => tokens_json w
  end.

Definition set_file (p : path) (c : option string) (w : world) : world :=
  match p with
  | CSV_FILE =>
      {| bookings_csv := c; tokens_json := tokens_json w;
         clock_reads := clock_reads w; sent := sent w |}
  | TOKENS_FILE =>
      {| bookings_csv := bookings_csv w; tokens_json := c;
         clock_reads := clock_reads w; sent := sent w |}
  end.

(** ** The monad of effectful code: state that survives a throw *)

Definition M (A : Type) : Type := world -> result A * world.

Definition ret {A} (a : A) : M A := fun w => (Ok a, w).

Definition throw {A} (e : error) : M A := fun w => (Throw e, w).

Definition bind {A B} (m : M A) (k : A -> M B) : M B :=
  fun w =>
    match m w with
    | (Ok a, w') => k a w'
    | (Throw e, w') => (Throw e, w')
    end.

(** [try { m } catch (e) { h e }] *)
Definition try_catch {A} (m : M A) (h : error -> M A) : M A :=
  fun w =>
    match m w with
    | (Ok a, w') => (Ok a, w')
    | (Throw e, w') => h e w'
    end.

Definition lift {A} (r : result A) : M A := fun w => (r, w).

Declare Scope js_scope.
Delimit Scope js_scope with js.
Notation "x <- m ;; k" := (bind m (fun x => k))
  (at level 61, m at next level, right associativity) : js_scope.
Notation "m ;; k" := (bind m (fun _ => k))
  (at level 61, right associativity) : js_scope.
Open Scope js_scope.

Definition ENOENT : error := Error "ENOENT: no such file or directory".

Section Effects.

Variable E : environment.

(** [Date.now()] *)
Definition Date_now : M Z :=
  fun w =>
    (Ok (clock E (clock_reads w)),
     {| bookings_csv := bookings_csv w; tokens_json := tokens_json w;
        clock_reads := S (clock_reads w); sent := sent w |}).

(** An awaited axios call. *)
Definition axios (req : http_request) : M value :=
  fun w =>
    (respond E req,
     {| bookings_csv := bookings_csv w; tokens_json := tokens_json w;
        clock_reads := clock_reads w; sent := sent w ++ [req] |}).

Definition existsSync (p : path) : M bool :=
  fun w => (Ok (match file p w with Some _ => true | None => false end), w).

Definition readFileSync (p : path) : M string :=
  fun w =>
    match fs_fault E Read p, file p w with
    | Some e, _ => (Throw e, w)
    | None, Some c => (Ok c, w)
    | None, None => (Throw ENOENT, w)
    end.

Definition writeFileSync (p : path) (c : string) : M unit :=
  fun w =>
    match fs_fault E Write p with
    | Some e => (Throw e, w)
    | None => (Ok tt, set_file p (Some c) w)
    end.

Definition appendFileSync (p : path) (c : string) : M unit :=
  fun w =>
    match fs_fault E Append p with
    | Some e => (Throw e, w)
    | None =>
        (Ok tt,
         set_file p (Some (match file p w with
                           | Some old => old ++ c
                           | None => c
                           end)) w)
    end.

Definition unlinkSync (p : path) : M unit :=
  fun w =>
    match fs_fault E Unlink p, file p w with
    | Some e, _ => (Throw e, w)
    | None, Some _ => (Ok tt, set_file p None w)
    | None, None => (Throw ENOENT, w)
    end.

(** Lines 12 to 18. *)
Definition ZOHO_REGION : value := js_or (env_value (env_ZOHO_REGION (vars E))) (VStr "in").
Definition ZOHO_CLIENT_ID : value := env_value (env_ZOHO_CLIENT_ID (vars E)).
Definition ZOHO_CLIENT_SECRET : value := env_value (env_ZOHO_CLIENT_SECRET (vars E)).
Definition ZOHO_GRANT_CODE : value := env_value (env_ZOHO_GRANT_CODE (vars E)).
Definition ZOHO_REFRESH_TOKEN : value := env_value (env_ZOHO_REFRESH_TOKEN (vars E)).
Definition ZOHO_WORKBOOK_ID : value := env_value (env_ZOHO_WORKBOOK_ID (vars E)).
Definition ZOHO_SHEET_NAME : value :=
  js_or (env_value (env_ZOHO_SHEET_NAME (vars E))) (VStr "Sheet1").

End Effects.

(** An environment variable in a template literal: its text, or
    [undefined] spelled out. *)
Definition text (v : value) : string :=
  match v with
  | VStr s => s
  | _ => "undefined"
  end.

(* ================================================================== *)
(** * The program *)
(* ================================================================== *)

(** Lines 20 to 63. *)
Definition FIELD_MAPPINGS : list (string * list string) :=
  [ ("timestamp", ["Date"; "timestamp"; "date"]);
    ("quotationNo", ["Quotation No"; "quotation_no"]);
    ("name", ["Full Name"; "Name"; "name"]);
    ("phone", ["Contact No"; "Phone"; "phone"]);
    ("email", ["Mail Id"; "Email"; "email"]);
    ("city", ["Location"; "City"; "city"]);
    ("address", ["Full Address"; "address"]);
    ("mainService", ["Service"; "service"]);
    ("onlineService", ["Online Service"]);
    ("budget", ["Budget"]);
    ("plotLength", ["Plot Length"]);
    ("plotWidth", ["Plot Width"]);
    ("archPlotArea", ["Plot Area"]);
    ("archSetback", ["Setback"]);
    ("typicalAreaAfterSetback", ["Typical Area"]);
    ("archFloors", ["Floors"]);
    ("archTerrace", ["Terrace"]);
    ("archTotalBuiltArea", ["Built Area"]);
    ("roadFacing", ["Road Facing"]);
    ("noOfHouses", ["Houses"]);
    ("rentalUnits", ["Rentals"]);
    ("shopsUnits", ["Shops"]);
    ("parkingUnits", ["Parking"]);
    ("archLift", ["Lift"]);
    ("archVastu", ["Vastu"]);
    ("rooms", ["Rooms"]);
    ("intFloorSelect", ["Interior Floors"]);
    ("archSubService", ["Sub Services"]);
    ("archSubTotal", ["Sub Total"]);
    ("archGst", ["GST"]);
    ("archTotal", ["Total"]);
    ("intTotalBuiltArea", ["Interior Area"]);
    ("constructionStage", ["Construction Stage"]);
    ("intSubTotal", ["Interior Subtotal"]);
    ("intGst", ["Interior GST"]);
    ("intTotal", ["Interior Total Cost"]);
    ("floorReq0", ["Ground floor requirement"]);
    ("floorReq1", ["Floor 1 requirement"]);
    ("floorReq2", ["Floor 2 requirement"]);
    ("floorReq3", ["Floor 3 requirement"]);
    ("floorReq4", ["Floor 4 requirement"]);
    ("floorReq5", ["Floor 5 requirement"]) ].

(** ** getBestMatch (lines 147 to 159) *)

(** The loop of lines 150 to 152 over the keys still to visit. *)
Fixpoint match_key (data : value) (hLower : string) (keys : list string)
  : option value :=
  match keys with
  | [] => None
  | key :: rest =>
      if String.eqb (strip_non_alnum (trim (toLowerCase key))) hLower
      then Some (get data key)
      else match_key data hLower rest
  end.

(** The loop of lines 153 to 157 over the table entries still to visit. *)
Fixpoint match_alias (data : value) (hLower : string)
    (entries : list (string * list string)) : option value :=
  match entries with
  | [] => None
  | (dataKey, aliases) :: rest =>
      if existsb (fun a => String.eqb (strip_non_alnum (toLowerCase a)) hLower) aliases
         && defined (get data dataKey)
      then Some (get data dataKey)
      else match_alias data hLower rest
  end.

Definition getBestMatch (data : value) (header : string) : result value :=
  let hLower := strip_non_alnum (trim (toLowerCase header)) in
  let* direct := prop data header in
  if defined direct then Ok direct
  else
    match match_key data hLower (own_keys data) with
    | Some v => Ok v
    | None =>
        match match_alias data hLower FIELD_MAPPINGS with
        | Some v => Ok v
        | None => Ok VUndefined
        end
    end.

(** Lines 166 to 175. *)
Definition headers : list string :=
  [ "Date"; "Quotation No"; "Full Name"; "Contact No"; "Mail Id"; "Location"; "Full Address";
    "Service"; "Online Service"; "Budget"; "Plot Length"; "Plot Width"; "Plot Area";
    "Setback"; "Typical Area"; "Floors"; "Terrace"; "Built Area"; "Road Facing";
    "Houses"; "Rentals"; "Shops"; "Parking"; "Lift"; "Vastu"; "Rooms";
    "Interior Floors"; "Sub Services"; "Sub Total"; "GST"; "Total";
    "Interior Area"; "Construction Stage"; "Interior Subtotal"; "Interior GST";
    "Interior Total Cost"; "Ground floor requirement"; "Floor 1 requirement";
    "Floor 2 requirement"; "Floor 3 requirement"; "Floor 4 requirement"; "Floor 5 requirement" ].

(** The property names of lines 179 to 219, each read as [data.k || '']. *)
Definition plain_columns : list string :=
  [ "quotationNo"; "name"; "phone"; "email"; "city"; "address"; "mainService";
    "onlineService"; "budget"; "plotLength"; "plotWidth"; "archPlotArea";
    "archSetback"; "typicalAreaAfterSetback"; "archFloors"; "archTerrace";
    "archTotalBuiltArea"; "roadFacing"; "noOfHouses"; "rentalUnits"; "shopsUnits";
    "parkingUnits"; "archLift"; "archVastu"; "rooms"; "intFloorSelect";
    "archSubService"; "archSubTotal"; "archGst"; "archTotal"; "intTotalBuiltArea";
    "constructionStage"; "intSubTotal"; "intGst"; "intTotal"; "floorReq0";
    "floorReq1"; "floorReq2"; "floorReq3"; "floorReq4"; "floorReq5" ].

(** An HTTP response of the server: the three cross-origin headers are set
    on every response (lines 275 to 277) and left out here. *)
Record response : Type := {
  statusCode : Z;
  content_type : option string;
  payload : string
}.

Record request : Type := {
  method : string;
  url : string;
  body : string     (* the chunks received, concatenated *)
}.

(* ================================================================== *)
(** * What the specification says, in its own words *)
(* ================================================================== *)

(** Standard CSV reading of one quoted field (RFC 4180): an opening double
    quote, then characters in which two double quotes stand for one, up to
    a closing double quote that ends the text. *)
Fixpoint csv_unquote_body (s : string) : option string :=
  match s with
  | EmptyString => None
  | String c r =>
      if Ascii.eqb c dquote
      then match r with
           | EmptyString => Some EmptyString
           | String c' r' =>
               if Ascii.eqb c' dquote
               then option_map (String dquote) (csv_unquote_body r')
               else None
           end
      else option_map (String c) (csv_unquote_body r)
  end.

Definition csv_unquote (s : string) : option string :=
  match s with
  | EmptyString => None
  | String c r => if Ascii.eqb c dquote then csv_unquote_body r else None
  end.

(** Section 4.1 of the specification: lowercase, strip all characters that
    are not alphanumeric. *)
Definition normalize (s : string) : string := strip_non_alnum (toLowerCase s).

Definition alias_matches (header : string) (entry : string * list string) : bool :=
  existsb (fun a => String.eqb (normalize a) (normalize header)) (snd entry).

(** The resolution order of section 4.1 on a record given by its key/value
    pairs: the exact key; else the first key equal to the header after
    normalization; else the canonical key of the table entry that lists
    the header among its aliases; else unresolved. *)
Definition spec_getBestMatch (record : list (string * value)) (header : string)
  : value :=
  match assoc header record with
  | Some v => v
  | None =>
      match find (fun p => String.eqb (normalize (fst p)) (normalize header)) record with
      | Some (_, v) => v
      | None =>
          match find (alias_matches header) FIELD_MAPPINGS with
          | Some (canonical, _) =>
              match assoc canonical record with
              | Some v => v
              | None => VUndefined
              end
          | None => VUndefined
          end
      end
  end.

(** No two entries of a table share an alias up to normalization. *)
Fixpoint disjoint_aliases (table : list (string * list string)) : bool :=
  match table with
  | [] => true
  | e :: rest =>
      forallb (fun e' =>
                 negb (existsb (fun a =>
                                  existsb (fun b => String.eqb (normalize a) (normalize b))
                                          (snd e'))
                               (snd e)))
              rest
      && disjoint_aliases rest
  end.

(** The number of line breaks in a text, and the line count of a file that
    may not exist. *)
Fixpoint line_breaks (s : string) : nat :=
  match s with
  | EmptyString => O
  | String c r => (if Ascii.eqb c newline then 1 else 0) + line_breaks r
  end.

Definition line_count (f : option string) : nat :=
  match f with
  | Some c => line_breaks c
  | None => O
  end.

(** Two checks on a table, both about entries that look alike after
    normalization: entries that share an alias have the same key, and a
    key that reads like an alias of an entry is the key of that entry. *)
Definition aliases_name_one_key (table : list (string * list string)) : bool :=
  forallb (fun e1 =>
    forallb (fun e2 =>
      forallb (fun a1 =>
        forallb (fun a2 =>
          implb (String.eqb (normalize a1) (normalize a2))
                (String.eqb (fst e1) (fst e2)))
          (snd e2))
        (snd e1))
      table)
    table.

Definition keys_read_as_own_alias (table : list (string * list string)) : bool :=
  forallb (fun e1 =>
    forallb (fun e2 =>
      forallb (fun a =>
        implb (String.eqb (normalize (fst e1)) (normalize a))
              (String.eqb (fst e1) (fst e2)))
        (snd e2))
      table)
    table.

Definition aliases_not_inherited (table : list (string * list string)) : bool :=
  forallb (fun e =>
    forallb (fun a => negb (existsb (String.eqb a) Object_prototype_names)) (snd e))
    table.

(** Standard CSV reading of one line made of quoted fields separated by
    commas.  [csv_in_field s] reads [s] from inside a quoted field: it
    returns the rest of that field followed by the fields after it.  A
    double quote inside a field is written twice; a comma or a line break
    inside the quotes belongs to the field. *)
Definition comma : ascii := ","%char.

Definition push_char (c : ascii) (fields : option (list string))
  : option (list string) :=
  match fields with
  | Some (f :: fs) => Some (String c f :: fs)
  | _ => None
  end.

Fixpoint csv_in_field (s : string) : option (list string) :=
  match s with
  | EmptyString => None
  | String c r =>
      if Ascii.eqb c dquote
      then match r with
           | EmptyString => Some [ EmptyString ]
           | String c' r' =>
               if Ascii.eqb c' dquote
               then push_char dquote (csv_in_field r')
               else if Ascii.eqb c' comma
               then match r' with
                    | String c'' r'' =>
                        if Ascii.eqb c'' dquote
                        then option_map (cons EmptyString) (csv_in_field r'')
                        else None
                    | EmptyString => None
                    end
               else None
           end
      else push_char c (csv_in_field r)
  end.

Definition csv_fields (s : string) : option (list string) :=
  match s with
  | EmptyString => Some []
  | String c r => if Ascii.eqb c dquote then csv_in_field r else None
  end.

(* ================================================================== *)
(** * Concrete inputs *)
(* ================================================================== *)

(** Records, token files, environments and stand-ins for the two
    built-ins, on which the program is run in the examples at the end. *)
Module Sample.

(** A parser that knows the JSON texts of the values of [known], as
    [JSON.stringify] writes them with indentation 0 or 2, and rejects
    every other text. *)
Definition parse_among (known : list value) (s : string) : result value :=
  match find (fun v => String.eqb (JSON_stringify 0 v) s
                       || String.eqb (JSON_stringify 2 v) s) known with
  | Some v => Ok v
  | None => Throw (Error "Unexpected token in JSON")
  end.

Definition asha : value := VObj [ ("name", VStr "Asha") ].
Definition full_name_asha : value := VObj [ ("Full Name", VStr "Asha") ].

Definition tokens_expiring (expires_at : Z) : value :=
  VObj [ ("access_token", VStr "token-1");
         ("refresh_token", VStr "refresh-1");
         ("expires_at", VNum expires_at) ].

(** The clock shows 1700000000000 at the first reading and one
    millisecond more at each later one. *)
Definition ticking (n : nat) : Z := 1700000000000 + Z.of_nat n.

Definition stale_tokens : value := tokens_expiring 1700000030000.
Definition boundary_tokens : value := tokens_expiring 1700000060000.
Definition fresh_tokens : value := tokens_expiring 1700003600000.

Definition JSON_parse : string -> result value :=
  parse_among [ VNull; VNum 5; asha; full_name_asha;
                stale_tokens; boundary_tokens; fresh_tokens ].

(** Decimal integers and the empty string, as the language reads them;
    every other string is taken for NaN. *)
Definition StringToNumber (s : string) : num :=
  if String.eqb s "" then Some 0
  else option_map Z.of_int (NilZero.int_of_string s).

Definition no_vars : process_env :=
  {| env_ZOHO_REGION := None; env_ZOHO_CLIENT_ID := None;
     env_ZOHO_CLIENT_SECRET := None; env_ZOHO_GRANT_CODE := None;
     env_ZOHO_REFRESH_TOKEN := None; env_ZOHO_WORKBOOK_ID := None;
     env_ZOHO_SHEET_NAME := None |}.

Definition grant_code_only : process_env :=
  {| env_ZOHO_REGION := None; env_ZOHO_CLIENT_ID := Some "client";
     env_ZOHO_CLIENT_SECRET := Some "secret"; env_ZOHO_GRANT_CODE := Some "grant-1";
     env_ZOHO_REFRESH_TOKEN := None; env_ZOHO_WORKBOOK_ID := Some "book";
     env_ZOHO_SHEET_NAME := None |}.

Definition healthy (op : fs_op) (p : path) : option error := None.

Definition read_only_log (op : fs_op) (p : path) : option error :=
  match op, p with
  | Append, CSV_FILE => Some (Error "EROFS: read-only file system")
  | _, _ => None
  end.

(** Every call is rejected. *)
Definition offline (req : http_request) : result value :=
  Throw (Error "Network Error").

(** A sheet service that answers the content query with [content] and
    accepts every append; the token endpoint is out of reach. *)
Definition sheet (content : value) (req : http_request) : result value :=
  match req with
  | axios_get _ _ => Ok content
  | axios_post_form _ _ _ => Ok (VObj [ ("status", VStr "success") ])
  | axios_post_params _ _ => Throw (Error "Network Error")
  end.

Definition cell (content : string) : value := VObj [ ("content", VStr content) ].

Definition sheet_rows (rows : list (list value)) : value :=
  VObj [ ("range_details",
          VArr (map (fun cells => VObj [ ("row_details", VArr cells []) ]) rows) []) ].

Definition E_offline : environment :=
  {| vars := no_vars; clock := ticking; respond := offline; fs_fault := healthy |}.

Definition E_offline_grant : environment :=
  {| vars := grant_code_only; clock := ticking; respond := offline; fs_fault := healthy |}.

Definition E_read_only_log : environment :=
  {| vars := no_vars; clock := ticking; respond := offline; fs_fault := read_only_log |}.

Definition E_sheet (content : value) : environment :=
  {| vars := no_vars; clock := ticking; respond := sheet content; fs_fault := healthy |}.

(** No log file, no token file, nothing sent, the clock never read. *)
Definition empty_world : world :=
  {| bookings_csv := None; tokens_json := None; clock_reads := 0; sent := [] |}.

Definition with_tokens (tokens : value) (log : option string) : world :=
  {| bookings_csv := log; tokens_json := Some (JSON_stringify 2 tokens);
     clock_reads := 0; sent := [] |}.

Definition save (text : string) : request :=
  {| method := "POST"; url := "/save"; body := text |}.

(** The body that carries the record [asha], and the data line of the
    sheet payload for it at the second clock reading. *)
Definition asha_body : string := JSON_stringify 0 asha.

Definition asha_line : string :=
  join "," (map csv_quote
              ("2023-11-14T22:13:20.001Z" :: "" :: "Asha" :: repeat "" 39)).

Definition refresh_error : error := Error "Zoho token refresh failed.".

(** The data of a token response: a new access token that lasts an hour. *)
Definition token_data : value :=
  VObj [ ("access_token", VStr "token-2");
         ("refresh_token", VStr "refresh-2");
         ("expires_in", VNum 3600) ].

(** A service that answers every call to the token endpoint with
    [token_data] and the content query with [content], and accepts every
    append. *)
Definition service (content : value) (req : http_request) : result value :=
  match req with
  | axios_get _ _ => Ok content
  | axios_post_form _ _ _ => Ok (VObj [ ("status", VStr "success") ])
  | axios_post_params _ _ => Ok token_data
  end.

Definition refresh_token_only : process_env :=
  {| env_ZOHO_REGION := None; env_ZOHO_CLIENT_ID := Some "client";
     env_ZOHO_CLIENT_SECRET := Some "secret"; env_ZOHO_GRANT_CODE := None;
     env_ZOHO_REFRESH_TOKEN := Some "refresh-0"; env_ZOHO_WORKBOOK_ID := Some "book";
     env_ZOHO_SHEET_NAME := None |}.

Definition E_service (content : value) : environment :=
  {| vars := grant_code_only; clock := ticking; respond := service content;
     fs_fault := healthy |}.

Definition E_offline_refresh : environment :=
  {| vars := refresh_token_only; clock := ticking; respond := offline;
     fs_fault := healthy |}.

(** The record [stale_tokens] once refreshed with [token_data] at the
    second clock reading, and a parser that knows both. *)
Definition renewed_tokens : value :=
  VObj [ ("access_token", VStr "token-2");
         ("refresh_token", VStr "refresh-1");
         ("expires_at", VNum 1700003600001) ].

Definition JSON_parse_tokens : string -> result value :=
  parse_among [ stale_tokens; renewed_tokens ].

Definition both_credentials : process_env :=
  {| env_ZOHO_REGION := None; env_ZOHO_CLIENT_ID := Some "client";
     env_ZOHO_CLIENT_SECRET := Some "secret"; env_ZOHO_GRANT_CODE := Some "grant-1";
     env_ZOHO_REFRESH_TOKEN := Some "refresh-0"; env_ZOHO_WORKBOOK_ID := Some "book";
     env_ZOHO_SHEET_NAME := None |}.

(** Storage that refuses to delete the token file. *)
Definition undeletable_tokens (op : fs_op) (p : path) : option error :=
  match op, p with
  | Unlink, TOKENS_FILE => Some (Error "EPERM: operation not permitted, unlink")
  | _, _ => None
  end.

Definition E_offline_both : environment :=
  {| vars := both_credentials; clock := ticking; respond := offline;
     fs_fault := healthy |}.

Definition E_offline_grant_undeletable : environment :=
  {| vars := grant_code_only; clock := ticking; respond := offline;
     fs_fault := undeletable_tokens |}.

(** The record that line 80 makes from the standing credential
    [refresh-0]. *)
Definition standing_record : value :=
  VObj [ ("refresh_token", VStr "refresh-0"); ("expires_at", VNum 0) ].

End Sample.

Section Program.

(** Built-ins of the language that are taken as given: [JSON.parse] and
    the conversion of a string to a number. *)
Variable JSON_parse : string -> result value.
Variable StringToNumber : string -> num.

Variable E : environment.

(** [Number(v)], as arithmetic and comparison apply it. *)
Definition to_number (v : value) : result num :=
  match v with
  | VUndefined => Ok None
  | VNull => Ok (Some 0)
  | VBool b => Ok (Some (if b then 1 else 0))
  | VNum n => Ok (Some n)
  | VNaN => Ok None
  | VStr s => Ok (StringToNumber s)
  | VArr _ _ => let* s := to_string v in Ok (StringToNumber s)
  | VObj _ => let* s := to_string v in Ok (StringToNumber s)
  | VNative _ => Ok None
  end.

(** ** getValidAccessToken (lines 65 to 145) *)

Definition token_url : string :=
  "https://accounts.zoho." ++ text (ZOHO_REGION E) ++ "/oauth/v2/token".

(** Lines 66 to 75. *)
Definition load_tokens : M value :=
  present <- existsSync TOKENS_FILE ;;
  if present
  then try_catch (c <- readFileSync E TOKENS_FILE ;; lift (JSON_parse c))
                 (fun _ => ret VNull)
  else ret VNull.

(** Lines 90 to 108: the body of the [try] of the exchange. *)
Definition exchange_steps : M value :=
  data <- axios E (axios_post_params token_url
            [ ("code", ZOHO_GRANT_CODE E);
              ("client_id", ZOHO_CLIENT_ID E);
              ("client_secret", ZOHO_CLIENT_SECRET E);
              ("grant_type", VStr "authorization_code") ]) ;;
  access_token <- lift (prop data "access_token") ;;
  refresh_token <- lift (prop data "refresh_token") ;;
  now <- Date_now E ;;
  expires_in <- lift (prop data "expires_in") ;;
  seconds <- lift (to_number expires_in) ;;
  let tokens :=
    VObj [ ("access_token", access_token);
           ("refresh_token", refresh_token);
           ("expires_at", of_num (num_add (Some now) (num_mul seconds (Some 1000)))) ] in
  try_catch (writeFileSync E TOKENS_FILE (JSON_stringify 2 tokens))
            (fun _ => ret tt) ;;
  ret (get tokens "access_token").

(** Lines 89 to 112. *)
Definition exchange_grant_code : M value :=
  try_catch exchange_steps
    (fun _ => throw (Error "Zoho Authentication failed. Please check ZOHO_GRANT_CODE.")).

(** The test of line 116 at clock reading [now]. *)
Definition expired (now : Z) (tokens : value) : result bool :=
  let* expiry := to_number (js_or (get tokens "expires_at") (VNum 0)) in
  Ok (num_ge (Some now) (num_sub expiry (Some 60000))).

(** The refresh call of lines 119 to 126. *)
Definition refresh_request (tokens : value) : http_request :=
  axios_post_params token_url
    [ ("refresh_token", get tokens "refresh_token");
      ("client_id", ZOHO_CLIENT_ID E);
      ("client_secret", ZOHO_CLIENT_SECRET E);
      ("grant_type", VStr "refresh_token") ].

(** Lines 119 to 133: the body of the [try] of the refresh; it yields the
    updated tokens. *)
Definition refresh_steps (tokens : value) : M value :=
  data <- axios E (refresh_request tokens) ;;
  access_token <- lift (prop data "access_token") ;;
  let tokens := assign tokens "access_token" access_token in
  now <- Date_now E ;;
  expires_in <- lift (prop data "expires_in") ;;
  seconds <- lift (to_number expires_in) ;;
  let tokens :=
    assign tokens "expires_at"
           (of_num (num_add (Some now) (num_mul seconds (Some 1000)))) in
  try_catch (writeFileSync E TOKENS_FILE (JSON_stringify 2 tokens))
            (fun _ => ret tt) ;;
  ret tokens.

(** Lines 135 to 141: the [catch] of the refresh. *)
Definition refresh_failed : M value :=
  (if truthy (ZOHO_GRANT_CODE E)
   then present <- existsSync TOKENS_FILE ;;
        if present then unlinkSync E TOKENS_FILE else ret tt
   else ret tt) ;;
  throw (Error "Zoho token refresh failed.").

(** Lines 118 to 142. *)
Definition refresh (tokens : value) : M value :=
  try_catch (refresh_steps tokens) (fun _ => refresh_failed).

Definition getValidAccessToken : M value :=
  (* 1. Try to load from tokens.json *)
  tokens <- load_tokens ;;
  (* 2. If no tokens but we have ZOHO_REFRESH_TOKEN env var, use it *)
  let tokens :=
    if negb (truthy tokens) && truthy (ZOHO_REFRESH_TOKEN E)
    then VObj [ ("refresh_token", ZOHO_REFRESH_TOKEN E); ("expires_at", VNum 0) ]
    else tokens in
  (* 3. If still no tokens, try grant code *)
  if negb (truthy tokens)
  then
    if negb (truthy (ZOHO_GRANT_CODE E))
    then throw (Error "No authentication method available. Set ZOHO_REFRESH_TOKEN or ZOHO_GRANT_CODE.")
    else exchange_grant_code
  else
    (* 4. Refresh if expired or almost expired *)
    now <- Date_now E ;;
    stale <- lift (expired now tokens) ;;
    if stale
    then tokens <- refresh tokens ;; ret (get tokens "access_token")
    else ret (get tokens "access_token").

(** ** appendToZohoSheet (lines 161 to 272) *)

(** Lines 177 to 220.  The clock is read only when [data.timestamp] is
    falsy. *)
Definition mappedValues (data : value) : M (list value) :=
  timestamp <- lift (prop data "timestamp") ;;
  first <- (if truthy timestamp then ret timestamp
            else now <- Date_now E ;; ret (VStr (toISOString now))) ;;
  rest <- lift (rmap (fun k => let* v := prop data k in Ok (js_or v (VStr "")))
                     plain_columns) ;;
  ret (first :: rest).

(** [v && v.length > 0] as a condition. *)
Definition has_items (v : value) : result bool :=
  if truthy v
  then let* n := to_number (get v "length") in Ok (num_gt n (Some 0))
  else Ok false.

(** The values that [for (const x of v)] visits. *)
Definition iterate (what : string) (v : value) : result (list value) :=
  match v with
  | VArr elems _ => Ok elems
  | VStr s => Ok (map VStr (chars s))
  | _ => Throw (Error (what ++ " is not iterable"))
  end.

(** The loop of lines 231 to 240 over the rows still to visit: whether it
    sets [headerFound]. *)
Fixpoint scan_rows (rows : list value) : result bool :=
  match rows with
  | [] => Ok false
  | row :: rest =>
      let* row_details := prop row "row_details" in
      let* some := has_items row_details in
      if some
      then
        let firstCell := opt_prop (get row_details "0") "content" in
        if is_string "Date" firstCell then Ok true else scan_rows rest
      else scan_rows rest
  end.

(** Lines 228 to 241 on the data of the check response. *)
Definition headerFound (checkRes_data : value) : result bool :=
  let* range_details := prop checkRes_data "range_details" in
  let* some := has_items range_details in
  if some
  then let* rows := iterate "checkRes.data.range_details" range_details in
       scan_rows rows
  else Ok false.

Definition checkUrl : string :=
  "https://sheet.zoho." ++ text (ZOHO_REGION E) ++ "/api/v2/" ++
  text (ZOHO_WORKBOOK_ID E) ++
  "?method=worksheet.content.get&worksheet_name=" ++ text (ZOHO_SHEET_NAME E) ++
  "&range=A1:A10".

Definition appendUrl : string :=
  "https://sheet.zoho." ++ text (ZOHO_REGION E) ++ "/api/v2/" ++
  text (ZOHO_WORKBOOK_ID E) ++ "?method=worksheet.csvdata.append".

(** One CSV line: every cell stringified, quoted, and joined by commas. *)
Definition csv_line (cells : list value) : result string :=
  let* quoted := rmap (fun v => let* s := to_string v in Ok (csv_quote s)) cells in
  Ok (join "," quoted).

(** Lines 245 to 250. *)
Definition csvContent (needsHeaders : bool) (row : list value) : result string :=
  let* head :=
    (if needsHeaders
     then let* line := csv_line (map VStr headers) in Ok (line ++ NL)
     else Ok "") in
  let* line := csv_line row in
  Ok (head ++ line).

(** The body of the [try] of lines 162 to 267. *)
Definition append_steps (data : value) : M value :=
  accessToken <- getValidAccessToken ;;
  row <- mappedValues data ;;
  token <- lift (to_string accessToken) ;;
  checkRes <- axios E (axios_get checkUrl
                [ ("Authorization", "Zoho-oauthtoken " ++ token) ]) ;;
  found <- lift (headerFound checkRes) ;;
  let needsHeaders := negb found in
  content <- lift (csvContent needsHeaders row) ;;
  token <- lift (to_string accessToken) ;;
  response_data <- axios E (axios_post_form appendUrl
                [ ("worksheet_name", text (ZOHO_SHEET_NAME E)); ("data", content) ]
                [ ("Authorization", "Zoho-oauthtoken " ++ token);
                  ("Content-Type", "application/x-www-form-urlencoded") ]) ;;
  (* line 266 reads response.data.status for the log *)
  _ <- lift (prop response_data "status") ;;
  ret response_data.

Definition failure (e : error) : value :=
  VObj [ ("status", VStr "failure"); ("error", VStr (message e)) ].

Definition appendToZohoSheet (data : value) : M value :=
  try_catch (append_steps data) (fun e => ret (failure e)).

(** ** The request handler (lines 274 to 306) *)

(** Line 292: the text appended to the log. *)
Definition csvRow (data : value) (keys : list string) (fileExists : bool)
  : result string :=
  let* cells :=
    rmap (fun h => let* v := prop data h in
                   let* s := to_string (js_or v (VStr "")) in
                   Ok (csv_quote s)) keys in
  Ok ((if fileExists then "" else join "," keys ++ NL) ++ join "," cells ++ NL).

(** Lines 285 to 299: the body of the [try]. *)
Definition save_steps (body : string) : M response :=
  (if String.eqb body "" then throw (Error "Empty request body") else ret tt) ;;
  data <- lift (JSON_parse body) ;;
  (* line 287 reads data.name for the log *)
  _ <- lift (prop data "name") ;;
  keys <- lift (Object_keys data) ;;
  fileExists <- existsSync CSV_FILE ;;
  line <- lift (csvRow data keys fileExists) ;;
  appendFileSync E CSV_FILE line ;;
  zohoRes <- appendToZohoSheet data ;;
  status <- lift (prop zohoRes "status") ;;
  ret {| statusCode := 200;
         content_type := Some "application/json";
         payload := JSON_stringify 0
                      (VObj [ ("success", VBool true); ("zoho", status) ]) |}.

(** The ['end'] callback (lines 283 to 304). *)
Definition on_end (body : string) : M response :=
  try_catch (save_steps body)
    (fun e =>
       ret {| statusCode := 400;
              content_type := None;
              payload := JSON_stringify 0
                           (VObj [ ("success", VBool false);
                                   ("error", VStr (message e)) ]) |}).

(** The server callback (lines 274 to 306). *)
Definition server (req : request) : M response :=
  if String.eqb (method req) "OPTIONS"
  then ret {| statusCode := 204; content_type := None; payload := "" |}
  else if String.eqb (method req) "POST"
          && (String.eqb (url req) "/save" || String.eqb (url req) "/")
  then on_end (body req)
  else ret {| statusCode := 404; content_type := None; payload := "" |}.

(* ================================================================ *)
(** * Descriptions used in the statements *)
(* ================================================================ *)

(** The world after one more clock reading. *)
Definition tick (w : world) : world :=
  {| bookings_csv := bookings_csv w; tokens_json := tokens_json w;
     clock_reads := S (clock_reads w); sent := sent w |}.

(** What lines 66 to 75 load: the parsed content of the token file, or
    [null] when the file is missing, unreadable or not JSON. *)
Definition stored_tokens (w : world) : value :=
  match tokens_json w with
  | None => VNull
  | Some c =>
      match fs_fault E Read TOKENS_FILE with
      | Some _ => VNull
      | None =>
          match JSON_parse c with
          | Ok v => v
          | Throw _ => VNull
          end
      end
  end.

(** The tokens after line 81: the stored ones, or the record made from
    the standing refresh credential. *)
Definition tokens_in_use (w : world) : value :=
  if negb (truthy (stored_tokens w)) && truthy (ZOHO_REFRESH_TOKEN E)
  then VObj [ ("refresh_token", ZOHO_REFRESH_TOKEN E); ("expires_at", VNum 0) ]
  else stored_tokens w.

Definition no_auth : error :=
  Error "No authentication method available. Set ZOHO_REFRESH_TOKEN or ZOHO_GRANT_CODE.".

(** The row that lines 177 to 220 build from [data] when the clock, if
    read, shows [now]. *)
Definition row_of (data : value) (now : Z) : list value :=
  js_or (get data "timestamp") (VStr (toISOString now))
  :: map (fun k => js_or (get data k) (VStr "")) plain_columns.

(** The world once line 293 has appended [line] to the log. *)
Definition logged (line : string) (w : world) : world :=
  set_file CSV_FILE
    (Some (match bookings_csv w with
           | Some old => old ++ line
           | None => line
           end)) w.

Definition log_exists (w : world) : bool :=
  match bookings_csv w with
  | Some _ => true
  | None => false
  end.

(** A computation that leaves the log file alone, whatever it returns. *)
Definition keeps_csv {A} (m : M A) : Prop :=
  forall w, bookings_csv (snd (m w)) = bookings_csv w.

(** The responses of lines 298 to 299 and of line 302. *)
Definition saved (status : value) : response :=
  {| statusCode := 200;
     content_type := Some "application/json";
     payload := JSON_stringify 0 (VObj [ ("success", VBool true); ("zoho", status) ]) |}.

Definition rejected (e : error) : response :=
  {| statusCode := 400;
     content_type := None;
     payload := JSON_stringify 0
                  (VObj [ ("success", VBool false); ("error", VStr (message e)) ]) |}.

(** Numbers, strings and booleans. *)
Definition scalar (v : value) : bool :=
  match v with
  | VBool _ | VNum _ | VStr _ => true
  | _ => false
  end.

(** The header line of line 248. *)
Definition headers_line : string := join "," (map csv_quote headers).

(** The two calls that [appendToZohoSheet] makes with the token text
    [token]: the query of the first ten cells of column A, and the append
    of the CSV text [content]. *)
Definition check_call (token : string) : http_request :=
  axios_get checkUrl [ ("Authorization", "Zoho-oauthtoken " ++ token) ].

Definition append_call (token content : string) : http_request :=
  axios_post_form appendUrl
    [ ("worksheet_name", text (ZOHO_SHEET_NAME E)); ("data", content) ]
    [ ("Authorization", "Zoho-oauthtoken " ++ token);
      ("Content-Type", "application/x-www-form-urlencoded") ].

(** A returned row whose [row_details] is an array that starts with a
    cell of content [Date]. *)
Definition row_starts_with_Date (row : value) : bool :=
  match get row "row_details" with
  | VArr (cell :: _) _ => is_string "Date" (opt_prop cell "content")
  | _ => false
  end.

(** A returned row that is an object (or any value but [null] and
    [undefined]) whose [row_details] is an array. *)
Definition row_shaped (row : value) : Prop :=
  nullish row = false
  /\ exists cells extra, get row "row_details" = VArr cells extra.

(** The exchange call of lines 90 to 97. *)
Definition exchange_request : http_request :=
  axios_post_params token_url
    [ ("code", ZOHO_GRANT_CODE E);
      ("client_id", ZOHO_CLIENT_ID E);
      ("client_secret", ZOHO_CLIENT_SECRET E);
      ("grant_type", VStr "authorization_code") ].

(** The record of lines 98 to 102, made from the data of the exchange
    response at clock reading [now]. *)
Definition exchanged (data : value) (now : Z) (seconds : num) : value :=
  VObj [ ("access_token", get data "access_token");
         ("refresh_token", get data "refresh_token");
         ("expires_at", of_num (num_add (Some now) (num_mul seconds (Some 1000)))) ].

(** The tokens after lines 127 and 128. *)
Definition refreshed (tokens data : value) (now : Z) (seconds : num) : value :=
  assign (assign tokens "access_token" (get data "access_token"))
         "expires_at" (of_num (num_add (Some now) (num_mul seconds (Some 1000)))).

(** The world after a call, and after an attempt to write the token file
    that the storage may refuse. *)
Definition called (req : http_request) (w : world) : world :=
  {| bookings_csv := bookings_csv w; tokens_json := tokens_json w;
     clock_reads := clock_reads w; sent := sent w ++ [req] |}.

Definition written (content : string) (w : world) : world :=
  match fs_fault E Write TOKENS_FILE with
  | Some _ => w
  | None => set_file TOKENS_FILE (Some content) w
  end.

Definition auth_failed : error :=
  Error "Zoho Authentication failed. Please check ZOHO_GRANT_CODE.".

(** Two requests for a token, one after the other. *)
Definition two_token_requests : M (value * value) :=
  first <- getValidAccessToken ;;
  second <- getValidAccessToken ;;
  ret (first, second).

(** Two submissions handled one after the other. *)
Definition two_submissions (body1 body2 : string) : M (response * response) :=
  first <- on_end body1 ;;
  second <- on_end body2 ;;
  ret (first, second).

(* ================================================================ *)
(** * Properties *)
(* ================================================================ *)

(** Case analysis on the innermost scrutinee of the goal. *)
Ltac break_match :=
  match goal with
  | |- context [match ?x with _ => _ end] =>
      lazymatch x with
      | context [match _ with _ => _ end] => fail
      | _ => destruct x eqn:?
      end
  end.

(** ** CSV quoting *)

Lemma csv_unquote_body_quoted (s : string) :
  csv_unquote_body (double_quotes s ++ String dquote EmptyString) = Some s.
Proof.
  induction s as [| c r IH]; simpl.
  - reflexivity.
  - destruct (Ascii.eqb c dquote) eqn:Hc; simpl.
    + apply Ascii.eqb_eq in Hc. subst c. rewrite IH. reflexivity.
    + rewrite Hc, IH. reflexivity.
Qed.

(** C9: the quoting scheme of the program (double every embedded double
    quote, wrap the field in double quotes) round-trips through standard
    CSV unquoting, for every string. *)
Theorem csv_quote_roundtrip (s : string) :
  csv_unquote (csv_quote s) = Some s.
Proof.
  unfold csv_quote, csv_unquote.
  change (Ascii.eqb dquote dquote) with true. cbv iota.
  apply csv_unquote_body_quoted.
Qed.

(** ** The field mapper *)

Lemma space_not_alnum (c : ascii) : is_space c = true -> is_alnum c = false.
Proof.
  destruct c as [[] [] [] [] [] [] [] []]; vm_compute; congruence.
Qed.

Lemma strip_trimStart (s : string) :
  strip_non_alnum (trimStart s) = strip_non_alnum s.
Proof.
  induction s as [| c r IH]; simpl; [reflexivity |].
  destruct (is_space c) eqn:Hc; [| reflexivity].
  rewrite (space_not_alnum c Hc). exact IH.
Qed.

Lemma strip_trimEnd (s : string) :
  strip_non_alnum (trimEnd s) = strip_non_alnum s.
Proof.
  induction s as [| c r IH]; simpl; [reflexivity |].
  destruct (trimEnd r) as [| c' r'] eqn:Hr.
  - simpl in IH. rewrite <- IH.
    destruct (is_space c) eqn:Hc; simpl.
    + rewrite (space_not_alnum c Hc). reflexivity.
    + destruct (is_alnum c); reflexivity.
  - change (strip_non_alnum (String c (String c' r')))
      with (if is_alnum c then String c (strip_non_alnum (String c' r'))
            else strip_non_alnum (String c' r')).
    rewrite IH. reflexivity.
Qed.

(** The key test of the program ([toLowerCase], [trim], strip) is the
    normalization of the specification: [trim] removes nothing that the
    strip would keep. *)
Lemma strip_trim (s : string) :
  strip_non_alnum (trim (toLowerCase s)) = normalize s.
Proof.
  unfold trim, normalize. rewrite strip_trimEnd, strip_trimStart. reflexivity.
Qed.

Lemma assoc_skip {A} (k : string) (pre l : list (string * A)) :
  (forall p, In p pre -> String.eqb (fst p) k = false) ->
  assoc k (pre ++ l)%list = assoc k l.
Proof.
  induction pre as [| [k' v'] pre IH]; intros H; simpl; [reflexivity |].
  pose proof (H (k', v') (or_introl eq_refl)) as X. simpl in X. rewrite X.
  apply IH.
  intros p Hp. apply H. right. exact Hp.
Qed.

Lemma assoc_In {A} (k : string) (l : list (string * A)) (v : A) :
  assoc k l = Some v -> In (k, v) l.
Proof.
  induction l as [| [k' v'] l IH]; simpl; [discriminate |].
  destruct (String.eqb k' k) eqn:Hk.
  - apply String.eqb_eq in Hk. intros [= ->]. left. congruence.
  - intros H. right. exact (IH H).
Qed.

(** The loop over the keys returns the value of the first pair whose key
    normalizes to the header. *)
Lemma match_key_find (record : list (string * value)) (h : string) :
  forall pre l,
    record = (pre ++ l)%list ->
    (forall p, In p pre -> String.eqb (normalize (fst p)) h = false) ->
    match_key (VObj record) h (map fst l)
    = option_map snd (find (fun p => String.eqb (normalize (fst p)) h) l).
Proof.
  intros pre l; revert pre.
  induction l as [| [k v] l IH]; intros pre Hrec Hpre; simpl; [reflexivity |].
  rewrite strip_trim.
  destruct (String.eqb (normalize k) h) eqn:Hk; simpl.
  - unfold get, own. rewrite Hrec, assoc_skip.
    + simpl. rewrite String.eqb_refl. reflexivity.
    + intros p Hp. destruct (String.eqb (fst p) k) eqn:Hpk; [| reflexivity].
      apply String.eqb_eq in Hpk. specialize (Hpre p Hp).
      rewrite Hpk in Hpre. congruence.
  - apply (IH (pre ++ [(k, v)])%list).
    + rewrite <- app_assoc. exact Hrec.
    + intros p Hp. apply in_app_or in Hp. destruct Hp as [Hp | [<- | []]].
      * exact (Hpre p Hp).
      * exact Hk.
Qed.

Lemma alias_test (h : string) (aliases : list string) (k : string) :
  existsb (fun a => String.eqb (strip_non_alnum (toLowerCase a))
                               (strip_non_alnum (trim (toLowerCase h)))) aliases
  = alias_matches h (k, aliases).
Proof.
  unfold alias_matches. simpl. rewrite strip_trim. reflexivity.
Qed.

Lemma disjoint_aliases_rest (h : string) (e : string * list string)
    (rest : list (string * list string)) :
  disjoint_aliases (e :: rest) = true ->
  alias_matches h e = true ->
  forall e', In e' rest -> alias_matches h e' = false.
Proof.
  simpl. intros Hd He e' Hin.
  apply andb_prop in Hd. destruct Hd as [Hd _].
  rewrite forallb_forall in Hd. specialize (Hd e' Hin).
  destruct (alias_matches h e') eqn:He'; [| reflexivity].
  unfold alias_matches in He, He'.
  apply existsb_exists in He. destruct He as [a [Ha Ea]].
  apply existsb_exists in He'. destruct He' as [b [Hb Eb]].
  apply String.eqb_eq in Ea, Eb.
  assert (X : existsb (fun a0 => existsb (fun b0 => String.eqb (normalize a0) (normalize b0))
                                         (snd e')) (snd e) = true).
  { apply existsb_exists. exists a. split; [exact Ha |].
    apply existsb_exists. exists b. split; [exact Hb |].
    apply String.eqb_eq. congruence. }
  rewrite X in Hd. discriminate.
Qed.

Lemma match_alias_none (data : value) (h : string)
    (table : list (string * list string)) :
  (forall e, In e table -> alias_matches h e = false) ->
  match_alias data (strip_non_alnum (trim (toLowerCase h))) table = None.
Proof.
  induction table as [| [k aliases] table IH]; intros H; simpl; [reflexivity |].
  rewrite (alias_test h aliases k), (H (k, aliases) (or_introl eq_refl)). simpl.
  apply IH. intros e He. apply H. right. exact He.
Qed.

(** The loop over the table returns the record's value under the
    canonical key of the entry that lists the header. *)
Lemma match_alias_find (record : list (string * value)) (h : string)
    (table : list (string * list string)) :
  disjoint_aliases table = true ->
  Forall (fun e => inherited (fst e) = VUndefined) table ->
  Forall (fun p => snd p <> VUndefined) record ->
  match_alias (VObj record) (strip_non_alnum (trim (toLowerCase h))) table
  = match find (alias_matches h) table with
    | Some (canonical, _) => assoc canonical record
    | None => None
    end.
Proof.
  intros Hd Hinh Hrec.
  induction table as [| [k aliases] table IH]; simpl; [reflexivity |].
  rewrite (alias_test h aliases k).
  inversion Hinh as [| e t Hk Hinh' Heq]; subst. simpl in Hk.
  destruct (alias_matches h (k, aliases)) eqn:Hm; simpl.
  - unfold get, own. destruct (assoc k record) as [v |] eqn:Ha.
    + assert (Hv : v <> VUndefined).
      { rewrite Forall_forall in Hrec. exact (Hrec (k, v) (assoc_In _ _ _ Ha)). }
      destruct v; try reflexivity. exfalso. exact (Hv eq_refl).
    + rewrite Hk. simpl.
      apply match_alias_none.
      exact (disjoint_aliases_rest h (k, aliases) table Hd Hm).
  - apply IH; [| exact Hinh'].
    simpl in Hd. apply andb_prop in Hd. destruct Hd as [_ Hd]. exact Hd.
Qed.

Lemma FIELD_MAPPINGS_disjoint : disjoint_aliases FIELD_MAPPINGS = true.
Proof. vm_compute. reflexivity. Qed.

Lemma FIELD_MAPPINGS_keys_not_inherited :
  Forall (fun e => inherited (fst e) = VUndefined) FIELD_MAPPINGS.
Proof. repeat constructor. Qed.

(** C7 (amended): on every record that came out of JSON and every header
    that is not the name of a member inherited from [Object.prototype],
    [getBestMatch] returns, without raising an error, what the resolution
    order of the specification gives: the exact key first, then the first
    key that matches after normalization, then the canonical key of the
    table entry listing the header as an alias, and unresolved when no
    step matches. *)
Theorem getBestMatch_resolution (record : list (string * value)) (header : string) :
  inherited header = VUndefined ->
  Forall (fun p => snd p <> VUndefined) record ->
  getBestMatch (VObj record) header = Ok (spec_getBestMatch record header).
Proof.
  intros Hh Hrec.
  unfold getBestMatch, spec_getBestMatch, prop.
  cbn [nullish rbind own_keys].
  unfold get at 1 2. unfold own.
  destruct (assoc header record) as [v |] eqn:Ha.
  - assert (Hv : v <> VUndefined).
    { rewrite Forall_forall in Hrec. exact (Hrec (header, v) (assoc_In _ _ _ Ha)). }
    destruct v; try reflexivity. exfalso. exact (Hv eq_refl).
  - rewrite Hh. cbn [defined].
    rewrite (match_key_find record _ [] record eq_refl) by (intros p []).
    rewrite (match_alias_find record header FIELD_MAPPINGS
               FIELD_MAPPINGS_disjoint FIELD_MAPPINGS_keys_not_inherited Hrec).
    rewrite strip_trim.
    destruct (find (fun p => String.eqb (normalize (fst p)) (normalize header)) record)
      as [[k v] |] eqn:Hf; cbn [option_map snd]; [reflexivity |].
    destruct (find (alias_matches header) FIELD_MAPPINGS) as [[canonical aliases] |];
      [| reflexivity].
    destruct (assoc canonical record); reflexivity.
Qed.

(** ** The output row *)

Lemma prop_ok (v : value) (k : string) :
  nullish v = false -> prop v k = Ok (get v k).
Proof. unfold prop. intros ->. reflexivity. Qed.

Lemma rmap_props (data : value) (f : value -> value) (keys : list string) :
  nullish data = false ->
  rmap (fun k => let* v := prop data k in Ok (f v)) keys
  = Ok (map (fun k => f (get data k)) keys).
Proof.
  intros Hd. induction keys as [| k keys IH]; simpl; [reflexivity |].
  rewrite (prop_ok data k Hd), IH. reflexivity.
Qed.

(** What [mappedValues] returns, and what it does to the world: the
    clock is read once when [data.timestamp] is falsy, and not at all
    otherwise. *)
Lemma mappedValues_run (data : value) (w : world) :
  nullish data = false ->
  mappedValues data w
  = (Ok (row_of data (clock E (clock_reads w))),
     if truthy (get data "timestamp") then w else tick w).
Proof.
  intros Hd. unfold mappedValues, row_of, bind, lift, ret.
  rewrite (prop_ok data "timestamp" Hd).
  rewrite (rmap_props data (fun v => js_or v (VStr "")) plain_columns Hd).
  unfold js_or at 2.
  destruct (truthy (get data "timestamp")) eqn:Ht; reflexivity.
Qed.

Lemma js_or_defined (a : value) (s : string) : js_or a (VStr s) <> VUndefined.
Proof. unfold js_or. destruct a; simpl; try discriminate; destruct (_ : bool); discriminate. Qed.

(** C1 (amended): the Output Row has exactly 42 columns, as many as there
    are headers and table entries and in the order of the table; each
    cell is read from the record under its own key; a cell whose value is
    missing or falsy is the empty string, except the first ([Date])
    cell, which is then the current time in ISO format. *)
Theorem output_row_shape (data : value) (w : world) :
  nullish data = false ->
  exists row w',
    mappedValues data w = (Ok row, w')
    /\ length row = 42%nat
    /\ length headers = 42%nat
    /\ map fst FIELD_MAPPINGS = ("timestamp" :: plain_columns)%list
    /\ headers = map (fun e => hd "" (snd e)) FIELD_MAPPINGS
    /\ (forall i k, nth_error plain_columns i = Some k ->
          nth_error row (S i)
          = Some (if truthy (get data k) then get data k else VStr ""))
    /\ nth_error row 0
       = Some (if truthy (get data "timestamp") then get data "timestamp"
               else VStr (toISOString (clock E (clock_reads w)))).
Proof.
  intros Hd. eexists. eexists.
  split; [apply (mappedValues_run data w Hd) |].
  repeat split.
  intros i k Hk. unfold row_of. cbn [nth_error].
  rewrite nth_error_map, Hk. reflexivity.
Qed.

(** C2 (amended): for any record, the header of every column of the fixed
    schema is the first alias of a table entry, and the cell of that
    column is the record's value under the canonical key of that entry
    whenever that value is truthy, and otherwise the empty string (the
    current ISO time for the first header); no cell is ever undefined. *)
Theorem output_row_cells (data : value) (w : world) :
  nullish data = false ->
  exists row w',
    mappedValues data w = (Ok row, w')
    /\ (forall i key aliases,
          nth_error FIELD_MAPPINGS i = Some (key, aliases) ->
          nth_error headers i = Some (hd "" aliases)
          /\ nth_error row i
             = Some (js_or (get data key)
                       (VStr (match i with
                              | O => toISOString (clock E (clock_reads w))
                              | S _ => ""
                              end))))
    /\ Forall (fun cell => cell <> VUndefined) row.
Proof.
  intros Hd. eexists. eexists.
  split; [apply (mappedValues_run data w Hd) |].
  split.
  - intros i key aliases Hi.
    do 42 (destruct i as [| i];
           [injection Hi as <- <-; split; reflexivity |]).
    destruct i; discriminate Hi.
  - unfold row_of. constructor; [apply js_or_defined |].
    apply Forall_forall. intros c Hc. apply in_map_iff in Hc.
    destruct Hc as [k [<- _]]. apply js_or_defined.
Qed.

(** ** The token store *)

Lemma load_tokens_run (w : world) : load_tokens w = (Ok (stored_tokens w), w).
Proof.
  unfold load_tokens, stored_tokens, bind, existsSync, try_catch, readFileSync,
    lift, ret, file.
  destruct (tokens_json w) as [c |] eqn:Hf; cbn; [| reflexivity].
  destruct (fs_fault E Read TOKENS_FILE); [reflexivity |].
  rewrite Hf. destruct (JSON_parse c); reflexivity.
Qed.

(** [getValidAccessToken] step by step. *)
Lemma getValidAccessToken_run (w : world) :
  getValidAccessToken w
  = if negb (truthy (tokens_in_use w))
    then if negb (truthy (ZOHO_GRANT_CODE E))
         then (Throw no_auth, w)
         else exchange_grant_code w
    else match expired (clock E (clock_reads w)) (tokens_in_use w) with
         | Throw e => (Throw e, tick w)
         | Ok true =>
             (tokens <- refresh (tokens_in_use w) ;;
              ret (get tokens "access_token")) (tick w)
         | Ok false => (Ok (get (tokens_in_use w) "access_token"), tick w)
         end.
Proof.
  unfold getValidAccessToken. unfold bind at 1. rewrite load_tokens_run.
  fold (tokens_in_use w).
  destruct (negb (truthy (tokens_in_use w))).
  - destruct (negb (truthy (ZOHO_GRANT_CODE E))); reflexivity.
  - unfold bind at 1. unfold Date_now at 1. fold (tick w).
    unfold bind at 1. unfold lift at 1.
    destruct (expired (clock E (clock_reads w)) (tokens_in_use w)) as [[|] | e];
      reflexivity.
Qed.

Lemma expired_numeric (now e : Z) (tokens : value) :
  get tokens "expires_at" = VNum e ->
  expired now tokens = Ok (e - 60000 <=? now).
Proof.
  intros He. unfold expired, js_or. rewrite He. simpl.
  destruct (e =? 0) eqn:H0; simpl; [| reflexivity].
  apply Z.eqb_eq in H0. subst e. reflexivity.
Qed.

(** Whatever the refresh does, it sends exactly the refresh call. *)
Lemma refresh_sent (tokens : value) (w : world) :
  sent (snd (refresh tokens w)) = (sent w ++ [refresh_request tokens])%list.
Proof.
  unfold refresh, refresh_steps, refresh_failed, try_catch, bind, axios, lift,
    Date_now, writeFileSync, existsSync, unlinkSync, ret, throw.
  cbn [sent bookings_csv tokens_json clock_reads file set_file].
  repeat (break_match; cbn [snd sent bookings_csv tokens_json clock_reads file set_file]);
    reflexivity.
Qed.

(** A refresh attempt that fails has not touched the token file. *)
Lemma refresh_steps_throw (tokens : value) (w : world) :
  match refresh_steps tokens w with
  | (Throw _, w1) => tokens_json w1 = tokens_json w
  | (Ok _, _) => True
  end.
Proof.
  unfold refresh_steps, try_catch, bind, axios, lift, Date_now, writeFileSync,
    ret, throw.
  repeat (break_match; cbn [snd sent bookings_csv tokens_json clock_reads file set_file]);
    try exact I; try reflexivity; try discriminate;
    repeat match goal with
           | H : (_, _) = (_, _) |- _ => injection H as ? ?; subst
           end;
    try discriminate; try reflexivity.
Qed.

(** C3: with a numeric [expires_at], the token is treated as expired
    exactly when [Date.now() >= expires_at - 60000]; so it is expired
    when [expires_at] is less than [now + 60000], and also exactly at the
    60-second boundary; an expired token triggers the refresh call, and a
    fresh one is returned without any call. *)
Theorem token_freshness (w : world) (e : Z) :
  truthy (tokens_in_use w) = true ->
  get (tokens_in_use w) "expires_at" = VNum e ->
  (expired (clock E (clock_reads w)) (tokens_in_use w) = Ok true
   <-> clock E (clock_reads w) >= e - 60000)
  /\ (e < clock E (clock_reads w) + 60000 ->
      expired (clock E (clock_reads w)) (tokens_in_use w) = Ok true)
  /\ (e = clock E (clock_reads w) + 60000 ->
      expired (clock E (clock_reads w)) (tokens_in_use w) = Ok true)
  /\ (clock E (clock_reads w) >= e - 60000 ->
      exists r w',
        getValidAccessToken w = (r, w')
        /\ sent w' = (sent w ++ [refresh_request (tokens_in_use w)])%list)
  /\ (clock E (clock_reads w) < e - 60000 ->
      getValidAccessToken w = (Ok (get (tokens_in_use w) "access_token"), tick w)).
Proof.
  intros Ht He.
  pose proof (expired_numeric (clock E (clock_reads w)) e _ He) as Hx.
  split; [| split; [| split; [| split]]].
  - rewrite Hx. split.
    + intros [= H]. apply Z.leb_le in H. lia.
    + intros H. f_equal. apply Z.leb_le. lia.
  - intros H. rewrite Hx. f_equal. apply Z.leb_le. lia.
  - intros H. rewrite Hx. f_equal. apply Z.leb_le. lia.
  - intros H. rewrite getValidAccessToken_run, Ht, Hx. cbn [negb].
    replace (e - 60000 <=? clock E (clock_reads w)) with true
      by (symmetry; apply Z.leb_le; lia).
    pose proof (refresh_sent (tokens_in_use w) (tick w)) as Hs.
    unfold bind, ret.
    destruct (refresh (tokens_in_use w) (tick w)) as [[t | err] w1];
      cbn [snd] in Hs; eexists; eexists; (split; [reflexivity | exact Hs]).
  - intros H. rewrite getValidAccessToken_run, Ht, Hx. cbn [negb].
    replace (e - 60000 <=? clock E (clock_reads w)) with false
      by (symmetry; apply Z.leb_gt; lia).
    reflexivity.
Qed.

(** C5 (amended): without any credential (no token file, no standing
    refresh credential, no grant code) [getValidAccessToken] fails with
    the authentication error; when the refresh attempt fails, a grant
    code is configured and the storage does not refuse the deletion, the
    token file is deleted before the refresh failure is signalled, and
    the next request, provided that no standing refresh credential is
    configured, goes to the exchange; when no grant code is configured
    the failure is signalled directly and the token file is left as it
    was. *)
Theorem token_store_failures (w : world) :
  (tokens_json w = None ->
   truthy (ZOHO_REFRESH_TOKEN E) = false ->
   truthy (ZOHO_GRANT_CODE E) = false ->
   getValidAccessToken w = (Throw no_auth, w))
  /\ (forall err w1,
        truthy (tokens_in_use w) = true ->
        expired (clock E (clock_reads w)) (tokens_in_use w) = Ok true ->
        refresh_steps (tokens_in_use w) (tick w) = (Throw err, w1) ->
        truthy (ZOHO_GRANT_CODE E) = true ->
        fs_fault E Unlink TOKENS_FILE = None ->
        exists w',
          getValidAccessToken w = (Throw (Error "Zoho token refresh failed."), w')
          /\ tokens_json w' = None
          /\ (truthy (ZOHO_REFRESH_TOKEN E) = false ->
              getValidAccessToken w' = exchange_grant_code w'))
  /\ (forall err w1,
        truthy (tokens_in_use w) = true ->
        expired (clock E (clock_reads w)) (tokens_in_use w) = Ok true ->
        refresh_steps (tokens_in_use w) (tick w) = (Throw err, w1) ->
        truthy (ZOHO_GRANT_CODE E) = false ->
        getValidAccessToken w = (Throw (Error "Zoho token refresh failed."), w1)
        /\ tokens_json w1 = tokens_json w).
Proof.
  split; [| split].
  - intros Hf Hr Hg.
    rewrite getValidAccessToken_run.
    unfold tokens_in_use, stored_tokens. rewrite Hf, Hr, Hg. reflexivity.
  - intros err w1 Ht Hx Hs Hg Hu.
    assert (Hgone : forall w', tokens_json w' = None ->
              truthy (ZOHO_REFRESH_TOKEN E) = false ->
              getValidAccessToken w' = exchange_grant_code w').
    { intros w' Hf Hr. rewrite getValidAccessToken_run.
      unfold tokens_in_use, stored_tokens. rewrite Hf, Hr, Hg. reflexivity. }
    rewrite getValidAccessToken_run, Ht, Hx. cbn [negb].
    unfold bind, refresh, try_catch. rewrite Hs.
    unfold refresh_failed, bind, existsSync, unlinkSync, throw, ret.
    rewrite Hg, Hu. cbn [file].
    destruct (tokens_json w1) as [c |] eqn:Hf.
    + cbn [file set_file]. rewrite Hf. eexists. split; [reflexivity |].
      split; [reflexivity |]. apply Hgone. reflexivity.
    + eexists. split; [reflexivity |]. split; [exact Hf |]. apply Hgone. exact Hf.
  - intros err w1 Ht Hx Hs Hg.
    rewrite getValidAccessToken_run, Ht, Hx. cbn [negb].
    unfold bind, refresh, try_catch. rewrite Hs.
    unfold refresh_failed, bind, throw, ret. rewrite Hg.
    split; [reflexivity |].
    pose proof (refresh_steps_throw (tokens_in_use w) (tick w)) as Hk.
    rewrite Hs in Hk. exact Hk.
Qed.

(** ** The log file belongs to the request handler *)

Lemma keeps_ret {A} (a : A) : keeps_csv (ret a).
Proof. intros w. reflexivity. Qed.

Lemma keeps_throw {A} (e : error) : keeps_csv (@throw A e).
Proof. intros w. reflexivity. Qed.

Lemma keeps_lift {A} (r : result A) : keeps_csv (lift r).
Proof. intros w. reflexivity. Qed.

Lemma keeps_bind {A B} (m : M A) (k : A -> M B) :
  keeps_csv m -> (forall a, keeps_csv (k a)) -> keeps_csv (bind m k).
Proof.
  intros Hm Hk w. unfold bind. specialize (Hm w).
  destruct (m w) as [[a | e] w1]; cbn [snd] in *.
  - rewrite (Hk a w1). exact Hm.
  - exact Hm.
Qed.

Lemma keeps_try_catch {A} (m : M A) (h : error -> M A) :
  keeps_csv m -> (forall e, keeps_csv (h e)) -> keeps_csv (try_catch m h).
Proof.
  intros Hm Hh w. unfold try_catch. specialize (Hm w).
  destruct (m w) as [[a | e] w1]; cbn [snd] in *.
  - exact Hm.
  - rewrite (Hh e w1). exact Hm.
Qed.

Lemma keeps_Date_now : keeps_csv (Date_now E).
Proof. intros w. reflexivity. Qed.

Lemma keeps_axios (req : http_request) : keeps_csv (axios E req).
Proof. intros w. reflexivity. Qed.

Lemma keeps_existsSync (p : path) : keeps_csv (existsSync p).
Proof. intros w. reflexivity. Qed.

Lemma keeps_readFileSync (p : path) : keeps_csv (readFileSync E p).
Proof.
  intros w. unfold readFileSync.
  destruct (fs_fault E Read p); [reflexivity |]. destruct (file p w); reflexivity.
Qed.

Lemma keeps_writeFileSync_tokens (c : string) : keeps_csv (writeFileSync E TOKENS_FILE c).
Proof. intros w. unfold writeFileSync. destruct (fs_fault E Write TOKENS_FILE); reflexivity. Qed.

Lemma keeps_unlinkSync_tokens : keeps_csv (unlinkSync E TOKENS_FILE).
Proof.
  intros w. unfold unlinkSync.
  destruct (fs_fault E Unlink TOKENS_FILE); [reflexivity |].
  destruct (file TOKENS_FILE w); reflexivity.
Qed.

Ltac keeps :=
  repeat first
    [ apply keeps_ret | apply keeps_throw | apply keeps_lift
    | apply keeps_Date_now | apply keeps_axios | apply keeps_existsSync
    | apply keeps_readFileSync | apply keeps_writeFileSync_tokens
    | apply keeps_unlinkSync_tokens
    | apply keeps_bind; [| intro]
    | apply keeps_try_catch; [| intro]
    | match goal with
      | |- keeps_csv (if ?b then _ else _) => destruct b
      | |- keeps_csv (match ?x with _ => _ end) => destruct x
      end
    | progress cbv zeta ].

Lemma keeps_getValidAccessToken : keeps_csv getValidAccessToken.
Proof.
  unfold getValidAccessToken, load_tokens, exchange_grant_code, exchange_steps,
    refresh, refresh_steps, refresh_failed.
  keeps.
Qed.

Lemma keeps_mappedValues (data : value) : keeps_csv (mappedValues data).
Proof. unfold mappedValues. keeps. Qed.

Lemma keeps_appendToZohoSheet (data : value) : keeps_csv (appendToZohoSheet data).
Proof.
  unfold appendToZohoSheet, append_steps.
  apply keeps_try_catch; [| intro; apply keeps_ret].
  apply keeps_bind; [apply keeps_getValidAccessToken | intro].
  apply keeps_bind; [apply keeps_mappedValues | intro].
  keeps.
Qed.

(** [appendToZohoSheet] never throws and never returns [null] or
    [undefined]: it returns the data of the append response, or the
    failure status carrying the message of the error that stopped it. *)
Lemma appendToZohoSheet_total (data : value) (w : world) :
  exists zohoRes w',
    appendToZohoSheet data w = (Ok zohoRes, w')
    /\ nullish zohoRes = false
    /\ bookings_csv w' = bookings_csv w
    /\ (forall e w2, append_steps data w = (Throw e, w2) ->
          zohoRes = failure e /\ w' = w2).
Proof.
  pose proof (keeps_appendToZohoSheet data w) as Hk.
  unfold appendToZohoSheet, try_catch in *.
  destruct (append_steps data w) as [[v | e] w1] eqn:Hs; cbn [snd] in Hk.
  - exists v, w1. repeat split; try assumption; try discriminate.
    revert Hs. unfold append_steps, bind, lift, ret.
    repeat (break_match; try discriminate).
    intros [= -> ->].
    match goal with
    | H : prop v "status" = Ok _ |- _ => revert H
    end.
    unfold prop. destruct (nullish v); [discriminate | reflexivity].
  - exists (failure e), w1.
    split; [reflexivity |]. split; [reflexivity |]. split; [exact Hk |].
    intros e' w2 [= <- <-]. split; reflexivity.
Qed.

(** ** The request handler *)

Lemma line_breaks_app (a b : string) :
  line_breaks (a ++ b) = (line_breaks a + line_breaks b)%nat.
Proof.
  induction a as [| c a IH]; simpl; [reflexivity |]. rewrite IH. lia.
Qed.

(** The steps of the handler up to the write of the log line. *)
Lemma save_steps_prefix (body : string) (data : value) (w : world) :
  body <> "" ->
  JSON_parse body = Ok data ->
  nullish data = false ->
  save_steps body w
  = match csvRow data (own_keys data) (log_exists w) with
    | Throw e => (Throw e, w)
    | Ok line =>
        match fs_fault E Append CSV_FILE with
        | Some e => (Throw e, w)
        | None =>
            (zohoRes <- appendToZohoSheet data ;;
             status <- lift (prop zohoRes "status") ;;
             ret (saved status)) (logged line w)
        end
    end.
Proof.
  intros Hb Hp Hd.
  unfold save_steps.
  destruct (String.eqb body "") eqn:Hbe; [apply String.eqb_eq in Hbe; contradiction |].
  unfold bind at 1. unfold ret at 1.
  unfold bind at 1. unfold lift at 1. rewrite Hp.
  unfold bind at 1. unfold lift at 1. rewrite (prop_ok data "name" Hd).
  unfold bind at 1. unfold lift at 1. unfold Object_keys. rewrite Hd.
  unfold bind at 1. unfold existsSync at 1. cbn [file]. fold (log_exists w).
  unfold bind at 1. unfold lift at 1.
  destruct (csvRow data (own_keys data) (log_exists w)) as [line | e]; [| reflexivity].
  unfold bind at 1. unfold appendFileSync at 1.
  destruct (fs_fault E Append CSV_FILE); [reflexivity |].
  cbn [file]. reflexivity.
Qed.

(** Once the log line is written the handler answers 200, with the
    status that [appendToZohoSheet] returned. *)
Lemma save_steps_logged (body : string) (data : value) (line : string) (w : world) :
  body <> "" ->
  JSON_parse body = Ok data ->
  nullish data = false ->
  csvRow data (own_keys data) (log_exists w) = Ok line ->
  fs_fault E Append CSV_FILE = None ->
  exists zohoRes w',
    appendToZohoSheet data (logged line w) = (Ok zohoRes, w')
    /\ on_end body w = (Ok (saved (get zohoRes "status")), w')
    /\ bookings_csv w' = bookings_csv (logged line w)
    /\ (forall e w2, append_steps data (logged line w) = (Throw e, w2) ->
          zohoRes = failure e /\ w' = w2).
Proof.
  intros Hb Hp Hd Hl Hf.
  destruct (appendToZohoSheet_total data (logged line w))
    as [zohoRes [w' [Hz [Hn [Hc Hfail]]]]].
  exists zohoRes, w'. split; [exact Hz |]. split; [| split; assumption].
  unfold on_end, try_catch.
  rewrite (save_steps_prefix body data w Hb Hp Hd), Hl, Hf.
  unfold bind, lift, ret. rewrite Hz, (prop_ok zohoRes "status" Hn). reflexivity.
Qed.

(** C4 (amended): for every submission whose body parses as JSON and
    whose log append succeeds, a failure of the remote sheet append makes
    [appendToZohoSheet] return the failure status with the error text
    instead of throwing, and the handler still answers 200 with zoho
    failure; whatever the remote outcome, the log file gains exactly the
    text of line 292: one data row, after a header line when the file is
    new, so that its line count grows by one only when the file already
    existed and no value holds a line break. *)
Theorem remote_failure_is_soft (body : string) (data : value) (line : string)
    (w : world) :
  body <> "" ->
  JSON_parse body = Ok data ->
  nullish data = false ->
  csvRow data (own_keys data) (log_exists w) = Ok line ->
  fs_fault E Append CSV_FILE = None ->
  (forall e w2,
      append_steps data (logged line w) = (Throw e, w2) ->
      appendToZohoSheet data (logged line w) = (Ok (failure e), w2)
      /\ on_end body w = (Ok (saved (VStr "failure")), w2))
  /\ (exists resp w',
        on_end body w = (Ok resp, w')
        /\ statusCode resp = 200
        /\ bookings_csv w' = bookings_csv (logged line w)
        /\ line_count (bookings_csv w')
           = (line_count (bookings_csv w) + line_breaks line)%nat)
  /\ (exists cells,
        line = (if log_exists w then "" else join "," (own_keys data) ++ NL)
               ++ join "," cells ++ NL
        /\ line_breaks line
           = ((if log_exists w then 0 else line_breaks (join "," (own_keys data)) + 1)
              + line_breaks (join "," cells) + 1)%nat
        /\ (line_breaks line = 1%nat
            <-> log_exists w = true /\ line_breaks (join "," cells) = 0%nat)).
Proof.
  intros Hb Hp Hd Hl Hf.
  destruct (save_steps_logged body data line w Hb Hp Hd Hl Hf)
    as [zohoRes [w' [Hz [Ho [Hc Hfail]]]]].
  split; [| split].
  - intros e w2 Hs. destruct (Hfail e w2 Hs) as [-> ->].
    split; [exact Hz | exact Ho].
  - exists (saved (get zohoRes "status")), w'.
    split; [exact Ho |]. split; [reflexivity |]. split; [exact Hc |].
    rewrite Hc. unfold logged. cbn [set_file bookings_csv line_count].
    destruct (bookings_csv w); cbn [line_count];
      [apply line_breaks_app | reflexivity].
  - revert Hl. unfold csvRow.
    destruct (rmap _ (own_keys data)) as [cells | e]; cbn [rbind]; [| discriminate].
    intros [= <-]. exists cells. split; [reflexivity |].
    assert (Hn : line_breaks
                   ((if log_exists w then "" else join "," (own_keys data) ++ NL)
                    ++ join "," cells ++ NL)
                 = ((if log_exists w then 0
                     else line_breaks (join "," (own_keys data)) + 1)
                    + line_breaks (join "," cells) + 1)%nat).
    { destruct (log_exists w); rewrite ?line_breaks_app; cbn [line_breaks NL];
        simpl; lia. }
    split; [exact Hn |].
    rewrite Hn. destruct (log_exists w); split.
    + intros H. split; [reflexivity | lia].
    + intros [_ H]. lia.
    + intros H. lia.
    + intros [H _]. discriminate H.
Qed.

(** No error ever leaves the server callback. *)
Lemma server_total (req : request) (w : world) :
  exists resp w', server req w = (Ok resp, w').
Proof.
  unfold server, on_end, try_catch, ret.
  repeat break_match; eexists; eexists; reflexivity.
Qed.

(** C8 (amended): when the local log append fails, the error is caught
    by the handler and turned into a 400 response that carries its
    message; nothing is sent to the remote service, the world is left as
    it was, and no error propagates out of the server. *)
Theorem log_failure_is_handled (body : string) (data : value) (line : string)
    (err : error) (w : world) :
  body <> "" ->
  JSON_parse body = Ok data ->
  nullish data = false ->
  csvRow data (own_keys data) (log_exists w) = Ok line ->
  fs_fault E Append CSV_FILE = Some err ->
  on_end body w = (Ok (rejected err), w)
  /\ (forall m u,
        m = "POST" -> u = "/save" \/ u = "/" ->
        server {| method := m; url := u; body := body |} w = (Ok (rejected err), w)).
Proof.
  intros Hb Hp Hd Hl Hf.
  assert (Ho : on_end body w = (Ok (rejected err), w)).
  { unfold on_end, try_catch.
    rewrite (save_steps_prefix body data w Hb Hp Hd), Hl, Hf. reflexivity. }
  split; [exact Ho |].
  intros m u -> Hu. unfold server.
  destruct Hu as [-> | ->]; cbn -[on_end]; exact Ho.
Qed.

Lemma simple_to_string (v : value) :
  match v with VArr _ _ | VObj _ => False | _ => True end ->
  exists s, to_string (js_or v (VStr "")) = Ok s.
Proof.
  unfold js_or. destruct v; cbn; intros H; try contradiction;
    repeat break_match; eexists; reflexivity.
Qed.

Lemma scalar_get_simple (data : value) (h : string) :
  scalar data = true ->
  match get data h with VArr _ _ | VObj _ => False | _ => True end.
Proof.
  assert (Hin : match inherited h with VArr _ _ | VObj _ => False | _ => True end).
  { unfold inherited. destruct (existsb (String.eqb h) Object_prototype_names); exact I. }
  unfold get, own.
  destruct data; try discriminate; intros _; try exact Hin.
  destruct (index_of h (String.length s)) as [i |].
  - rewrite nth_error_map. destruct (nth_error (chars s) i); [exact I | exact Hin].
  - destruct (String.eqb h "length"); [exact I | exact Hin].
Qed.

(** A number, a string or a boolean always yields a log line. *)
Lemma scalar_csvRow (data : value) (fileExists : bool) :
  scalar data = true ->
  exists line, csvRow data (own_keys data) fileExists = Ok line.
Proof.
  intros Hs. unfold csvRow.
  assert (Hd : nullish data = false) by (destruct data; try discriminate; reflexivity).
  assert (Hcells : forall keys, exists cells,
             rmap (fun h => let* v := prop data h in
                            let* s := to_string (js_or v (VStr "")) in
                            Ok (csv_quote s)) keys = Ok cells).
  { induction keys as [| h keys [cells IH]]; [exists []; reflexivity |].
    destruct (simple_to_string (get data h) (scalar_get_simple data h Hs)) as [t Ht].
    exists (csv_quote t :: cells). cbn [rmap]. rewrite IH, (prop_ok data h Hd).
    cbn [rbind]. rewrite Ht. reflexivity. }
  destruct (Hcells (own_keys data)) as [cells ->].
  eexists. reflexivity.
Qed.

(** C10 (amended): the handler enforces no object shape.  A non-empty
    body that parses to a number, a string or a boolean is answered 200
    with success true whenever the log append succeeds, and so is any
    other value than null whose log line can be built (an array, for
    one); a body that parses to [null] is answered 400, because reading
    [data.name] throws. *)
Theorem non_object_bodies (body : string) (data : value) (w : world) :
  body <> "" ->
  JSON_parse body = Ok data ->
  (scalar data = true ->
   fs_fault E Append CSV_FILE = None ->
   exists zohoRes w', on_end body w = (Ok (saved (get zohoRes "status")), w'))
  /\ (forall line,
        nullish data = false ->
        csvRow data (own_keys data) (log_exists w) = Ok line ->
        fs_fault E Append CSV_FILE = None ->
        exists zohoRes w', on_end body w = (Ok (saved (get zohoRes "status")), w'))
  /\ (data = VNull ->
      on_end body w
      = (Ok (rejected (Error "Cannot read properties of null (reading 'name')")), w)).
Proof.
  intros Hb Hp.
  assert (Hgen : forall line,
             nullish data = false ->
             csvRow data (own_keys data) (log_exists w) = Ok line ->
             fs_fault E Append CSV_FILE = None ->
             exists zohoRes w', on_end body w = (Ok (saved (get zohoRes "status")), w')).
  { intros line Hd Hl Hf.
    destruct (save_steps_logged body data line w Hb Hp Hd Hl Hf)
      as [zohoRes [w' [_ [Ho _]]]].
    exists zohoRes, w'. exact Ho. }
  split; [| split].
  - intros Hs Hf.
    destruct (scalar_csvRow data (log_exists w) Hs) as [line Hl].
    apply (Hgen line); [| exact Hl | exact Hf].
    destruct data; try discriminate; reflexivity.
  - exact Hgen.
  - intros ->. unfold on_end, try_catch, save_steps.
    destruct (String.eqb body "") eqn:Hbe; [apply String.eqb_eq in Hbe; contradiction |].
    unfold bind, lift, ret. rewrite Hp. reflexivity.
Qed.

(** ** The header check *)

Lemma index_key_not_length (i : nat) : String.eqb (index_key i) "length" = false.
Proof.
  unfold index_key, NilZero.string_of_uint.
  destruct (Nat.to_uint i); reflexivity.
Qed.

Lemma index_of_length (n : nat) : index_of "length" n = None.
Proof.
  unfold index_of. generalize 0%nat.
  induction n as [| n IH]; intros k; cbn [seq find]; [reflexivity |].
  rewrite index_key_not_length. apply IH.
Qed.

Lemma has_items_array (elems : list value) (extra : list (string * value)) :
  has_items (VArr elems extra)
  = Ok (match elems with [] => false | _ :: _ => true end).
Proof.
  unfold has_items, get, own. cbn [truthy].
  rewrite index_of_length. cbn.
  destruct elems; cbn; reflexivity.
Qed.

Lemma get_first (x : value) (elems : list value) (extra : list (string * value)) :
  get (VArr (x :: elems) extra) "0" = x.
Proof. reflexivity. Qed.

(** On rows of the documented shape the scan finds the header exactly
    when some row starts with a cell of content [Date]. *)
Lemma scan_rows_shaped (rows : list value) :
  Forall row_shaped rows ->
  scan_rows rows = Ok (existsb row_starts_with_Date rows).
Proof.
  induction rows as [| row rows IH]; intros Hall; [reflexivity |].
  inversion Hall as [| r rs [Hn [cells [extra Hrd]]] Hrest Heq]; subst.
  cbn [scan_rows existsb]. rewrite (prop_ok row "row_details" Hn).
  unfold row_starts_with_Date at 1. rewrite Hrd. cbn [rbind].
  rewrite has_items_array.
  destruct cells as [| cell cells]; cbn [rbind orb].
  - apply IH. exact Hrest.
  - rewrite get_first.
    destruct (is_string "Date" (opt_prop cell "content")); cbn [orb];
      [reflexivity | apply IH; exact Hrest].
Qed.

Lemma append_assoc (a b c : string) : (a ++ b) ++ c = a ++ (b ++ c).
Proof. induction a as [| x a IH]; simpl; [reflexivity | rewrite IH; reflexivity]. Qed.

Lemma csvContent_run (found : bool) (row : list value) (line : string) :
  csv_line row = Ok line ->
  csvContent (negb found) row
  = Ok ((if found then "" else headers_line ++ NL) ++ line).
Proof.
  intros Hl. unfold csvContent. rewrite Hl.
  destruct found; cbn [negb rbind]; [reflexivity |].
  replace (csv_line (map VStr headers)) with (Ok headers_line)
    by (vm_compute; reflexivity).
  reflexivity.
Qed.

(** C6 (amended): [appendToZohoSheet] queries the range A1:A10 of the
    sheet and, for every response whose scan completes, sends a payload
    that is the data line prefixed with the full header line if and only
    if the scan did not find the header; on every response whose
    [range_details] is an array of rows with an array [row_details], the
    header is found exactly when some returned row has a first cell whose
    content is the string [Date]: cells after the first are not looked
    at. *)
Theorem header_row_iff (data : value) (w : world) :
  (exists prefix, checkUrl = prefix ++ "&range=A1:A10")
  /\ (forall accessToken w1 row w2 token checkRes found line,
        getValidAccessToken w = (Ok accessToken, w1) ->
        mappedValues data w1 = (Ok row, w2) ->
        to_string accessToken = Ok token ->
        respond E (check_call token) = Ok checkRes ->
        headerFound checkRes = Ok found ->
        csv_line row = Ok line ->
        exists r w',
          appendToZohoSheet data w = (r, w')
          /\ sent w'
             = (sent w2 ++
                [ check_call token;
                  append_call token
                    ((if found then "" else headers_line ++ NL) ++ line) ])%list)
  /\ (forall checkRes rows extra,
        nullish checkRes = false ->
        get checkRes "range_details" = VArr rows extra ->
        Forall row_shaped rows ->
        headerFound checkRes = Ok (existsb row_starts_with_Date rows)).
Proof.
  split; [| split].
  - exists ("https://sheet.zoho." ++ text (ZOHO_REGION E) ++ "/api/v2/" ++
            text (ZOHO_WORKBOOK_ID E) ++
            "?method=worksheet.content.get&worksheet_name=" ++
            text (ZOHO_SHEET_NAME E)).
    unfold checkUrl. rewrite !append_assoc. reflexivity.
  - intros accessToken w1 row w2 token checkRes found line Ht Hr Hs Hc Hf Hl.
    enough (Hsteps : exists r w',
               append_steps data w = (r, w')
               /\ sent w'
                  = (sent w2 ++
                     [ check_call token;
                       append_call token
                         ((if found then "" else headers_line ++ NL) ++ line) ])%list).
    { destruct Hsteps as [r [w' [Hrun Hsent]]].
      unfold appendToZohoSheet, try_catch. rewrite Hrun.
      destruct r; eexists; eexists; (split; [reflexivity | exact Hsent]). }
    unfold append_steps.
    unfold bind at 1. rewrite Ht. cbv beta iota.
    unfold bind at 1. rewrite Hr. cbv beta iota.
    unfold bind at 1. unfold lift at 1. rewrite Hs. cbv beta iota.
    unfold bind at 1. unfold axios at 1. fold (check_call token). rewrite Hc.
    cbv beta iota.
    unfold bind at 1. unfold lift at 1. rewrite Hf. cbv beta iota.
    unfold bind at 1. unfold lift at 1. rewrite (csvContent_run found row line Hl).
    cbv beta iota.
    unfold bind at 1. unfold lift at 1. cbv beta iota.
    unfold bind at 1. unfold axios at 1.
    fold (append_call token ((if found then "" else headers_line ++ NL) ++ line)).
    cbn [sent].
    destruct (respond E (append_call token _)) as [resp | e].
    + unfold bind, lift, ret. destruct (prop resp "status");
        eexists; eexists; (split; [reflexivity |]); cbn [sent];
        rewrite <- app_assoc; reflexivity.
    + eexists; eexists; (split; [reflexivity |]); cbn [sent];
        rewrite <- app_assoc; reflexivity.
  - intros checkRes rows extra Hn Hg Hall.
    unfold headerFound. rewrite (prop_ok checkRes "range_details" Hn), Hg.
    cbn [rbind]. rewrite has_items_array.
    destruct rows as [| row rows]; cbn [rbind]; [reflexivity |].
    cbn [iterate]. apply scan_rows_shaped. exact Hall.
Qed.

(** ** More on the field mapper *)

Lemma alnum_is_lower (c : ascii) : is_alnum c = true -> lower_char c = c.
Proof.
  destruct c as [[] [] [] [] [] [] [] []]; vm_compute; intros H;
    first [reflexivity | discriminate H].
Qed.

Lemma normalize_stripped (s : string) :
  normalize (strip_non_alnum s) = strip_non_alnum s.
Proof.
  unfold normalize.
  induction s as [| c r IH]; [reflexivity |].
  cbn [strip_non_alnum]. destruct (is_alnum c) eqn:Hc; [| exact IH].
  cbn [toLowerCase strip_non_alnum].
  rewrite (alnum_is_lower c Hc), Hc, IH. reflexivity.
Qed.

(** X1: the normalization that [getBestMatch] applies to the header and to
    every key (lowercase, trim, strip what is not a-z or 0-9) is
    idempotent, and what it returns holds letters a-z and digits only. *)
Theorem key_normalization_idempotent (s : string) :
  strip_non_alnum (trim (toLowerCase
    (strip_non_alnum (trim (toLowerCase s)))))
  = strip_non_alnum (trim (toLowerCase s))
  /\ strip_non_alnum (strip_non_alnum (trim (toLowerCase s)))
     = strip_non_alnum (trim (toLowerCase s))
  /\ toLowerCase (strip_non_alnum (trim (toLowerCase s)))
     = strip_non_alnum (trim (toLowerCase s)).
Proof.
  rewrite !strip_trim. unfold normalize at 2 3 4 5 6.
  assert (Hl : forall t, toLowerCase (strip_non_alnum t) = strip_non_alnum t).
  { induction t as [| c r IH]; [reflexivity |].
    cbn [strip_non_alnum]. destruct (is_alnum c) eqn:Hc; [| exact IH].
    cbn [toLowerCase]. rewrite (alnum_is_lower c Hc), IH. reflexivity. }
  assert (Hs : forall t, strip_non_alnum (strip_non_alnum t) = strip_non_alnum t).
  { induction t as [| c r IH]; [reflexivity |].
    cbn [strip_non_alnum]. destruct (is_alnum c) eqn:Hc; [| exact IH].
    cbn [strip_non_alnum]. rewrite Hc, IH. reflexivity. }
  split; [| split].
  - apply normalize_stripped.
  - apply Hs.
  - apply Hl.
Qed.

Lemma assoc_find {A} (k : string) (l : list (string * A)) :
  assoc k l = option_map snd (find (fun p => String.eqb (fst p) k) l).
Proof.
  induction l as [| [k' v'] l IH]; [reflexivity |].
  cbn [assoc find fst]. destruct (String.eqb k' k); [reflexivity | exact IH].
Qed.

Lemma find_agree {A} (f g : A -> bool) (l : list A) :
  (forall x, In x l -> f x = g x) -> find f l = find g l.
Proof.
  induction l as [| x l IH]; intros H; [reflexivity |].
  cbn [find]. rewrite (H x (or_introl eq_refl)).
  destruct (g x); [reflexivity |].
  apply IH. intros y Hy. apply H. right. exact Hy.
Qed.

Lemma FIELD_MAPPINGS_aliases_name_one_key :
  forall e1 e2 a1 a2,
    In e1 FIELD_MAPPINGS -> In e2 FIELD_MAPPINGS ->
    In a1 (snd e1) -> In a2 (snd e2) ->
    normalize a1 = normalize a2 -> fst e1 = fst e2.
Proof.
  assert (H : aliases_name_one_key FIELD_MAPPINGS = true) by (vm_compute; reflexivity).
  intros e1 e2 a1 a2 H1 H2 Ha1 Ha2 Hn.
  unfold aliases_name_one_key in H.
  rewrite forallb_forall in H. specialize (H e1 H1).
  rewrite forallb_forall in H. specialize (H e2 H2).
  rewrite forallb_forall in H. specialize (H a1 Ha1).
  rewrite forallb_forall in H. specialize (H a2 Ha2).
  rewrite Hn, String.eqb_refl in H. cbn [implb] in H.
  apply String.eqb_eq. exact H.
Qed.

Lemma FIELD_MAPPINGS_keys_read_as_own_alias :
  forall e1 e2 a,
    In e1 FIELD_MAPPINGS -> In e2 FIELD_MAPPINGS -> In a (snd e2) ->
    normalize (fst e1) = normalize a -> fst e1 = fst e2.
Proof.
  assert (H : keys_read_as_own_alias FIELD_MAPPINGS = true) by (vm_compute; reflexivity).
  intros e1 e2 a H1 H2 Ha Hn.
  unfold keys_read_as_own_alias in H.
  rewrite forallb_forall in H. specialize (H e1 H1).
  rewrite forallb_forall in H. specialize (H e2 H2).
  rewrite forallb_forall in H. specialize (H a Ha).
  rewrite Hn, String.eqb_refl in H. cbn [implb] in H.
  apply String.eqb_eq. exact H.
Qed.

Lemma FIELD_MAPPINGS_aliases_not_inherited :
  forall e a, In e FIELD_MAPPINGS -> In a (snd e) -> inherited a = VUndefined.
Proof.
  assert (H : aliases_not_inherited FIELD_MAPPINGS = true) by (vm_compute; reflexivity).
  intros e a He Ha. unfold aliases_not_inherited in H.
  rewrite forallb_forall in H. specialize (H e He).
  rewrite forallb_forall in H. specialize (H a Ha).
  unfold inherited. destruct (existsb (String.eqb a) Object_prototype_names);
    [discriminate H | reflexivity].
Qed.

(** On a record whose keys are keys of the table, every alias of an entry
    resolves to the record's value under the key of that entry. *)
Lemma alias_resolves (record : list (string * value)) (k : string)
    (aliases : list string) (a : string) (v : value) :
  In (k, aliases) FIELD_MAPPINGS ->
  In a aliases ->
  Forall (fun p => snd p <> VUndefined) record ->
  Forall (fun p => In (fst p) (map fst FIELD_MAPPINGS)) record ->
  assoc k record = Some v ->
  getBestMatch (VObj record) a = Ok v.
Proof.
  intros He Ha Hjson Hkeys Hk.
  assert (Hv : defined v = true).
  { pose proof (assoc_In _ _ _ Hk) as Hin.
    rewrite Forall_forall in Hjson. specialize (Hjson (k, v) Hin). cbn in Hjson.
    destruct v; try reflexivity. exfalso. exact (Hjson eq_refl). }
  assert (Hcanon : forall k' v', In (k', v') record ->
                     normalize k' = normalize a -> k' = k).
  { intros k' v' Hin Hn.
    rewrite Forall_forall in Hkeys. specialize (Hkeys (k', v') Hin). cbn [fst] in Hkeys.
    apply in_map_iff in Hkeys. destruct Hkeys as [e1 [Hf He1]].
    rewrite <- Hf in Hn |- *.
    exact (FIELD_MAPPINGS_keys_read_as_own_alias e1 (k, aliases) a He1 He Ha Hn). }
  unfold getBestMatch, prop. cbn [nullish rbind own_keys].
  unfold get at 1 2. unfold own. 
  destruct (assoc a record) as [x |] eqn:Hax.
  - pose proof (assoc_In _ _ _ Hax) as Hin.
    assert (a = k) by exact (Hcanon a x Hin eq_refl). subst a.
    rewrite Hk in Hax. injection Hax as <-. rewrite Hv. reflexivity.
  - rewrite (FIELD_MAPPINGS_aliases_not_inherited (k, aliases) a He Ha).
    cbn [defined].
    rewrite (match_key_find record _ [] record eq_refl) by (intros p []).
    rewrite (match_alias_find record a FIELD_MAPPINGS
               FIELD_MAPPINGS_disjoint FIELD_MAPPINGS_keys_not_inherited Hjson).
    rewrite strip_trim.
    destruct (find (fun p => String.eqb (normalize (fst p)) (normalize a)) record)
      as [[k' v'] |] eqn:Hf.
    + cbn [option_map snd].
      rewrite (find_agree _ (fun p => String.eqb (fst p) k) record) in Hf.
      * rewrite assoc_find, Hf in Hk. cbn in Hk. injection Hk as ->. reflexivity.
      * intros [k1 v1] Hin. cbn [fst].
        destruct (String.eqb (normalize k1) (normalize a)) eqn:Hn.
        -- apply String.eqb_eq in Hn. rewrite (Hcanon k1 v1 Hin Hn).
           symmetry. apply String.eqb_refl.
        -- destruct (String.eqb k1 k) eqn:Hk1; [| reflexivity].
           apply String.eqb_eq in Hk1. subst k1.
           assert (Hnk : normalize k = normalize a).
           { apply find_some in Hf. destruct Hf as [Hin' Hn'].
             cbn [fst] in Hn'. apply String.eqb_eq in Hn'.
             rewrite <- (Hcanon k' v' Hin' Hn'). exact Hn'. }
           rewrite Hnk, String.eqb_refl in Hn. discriminate Hn.
    + cbn [option_map].
      destruct (find (alias_matches a) FIELD_MAPPINGS) as [[c al] |] eqn:Hfa.
      * apply find_some in Hfa. destruct Hfa as [Hin Hm].
        unfold alias_matches in Hm. cbn [snd] in Hm.
        apply existsb_exists in Hm. destruct Hm as [b [Hb Hn]].
        apply String.eqb_eq in Hn.
        pose proof (FIELD_MAPPINGS_aliases_name_one_key (c, al) (k, aliases) b a
                      Hin He Hb Ha Hn) as Hc.
        cbn [fst] in Hc. subst c. rewrite Hk. reflexivity.
      * exfalso.
        pose proof (find_none _ _ Hfa (k, aliases) He) as Hm.
        unfold alias_matches in Hm. cbn [snd] in Hm.
        assert (Ht : existsb (fun a0 => String.eqb (normalize a0) (normalize a)) aliases
                     = true).
        { apply existsb_exists. exists a. split; [exact Ha | apply String.eqb_refl]. }
        rewrite Ht in Hm. discriminate Hm.
Qed.

(** X2: on a record whose keys are field keys of the mapping table (what
    the form sends), [getBestMatch] resolves every sheet header and every
    other alias of an entry to the record's value under the key of that
    entry, whatever the other keys hold: no alias is captured by another
    entry. *)
Theorem every_alias_resolves (record : list (string * value)) (k : string)
    (aliases : list string) (a : string) (v : value) :
  In (k, aliases) FIELD_MAPPINGS ->
  In a aliases ->
  Forall (fun p => snd p <> VUndefined) record ->
  Forall (fun p => In (fst p) (map fst FIELD_MAPPINGS)) record ->
  assoc k record = Some v ->
  getBestMatch (VObj record) a = Ok v.
Proof. exact (alias_resolves record k aliases a v). Qed.

Lemma row_of_nth (data : value) (now : Z) (i : nat) (key : string)
    (aliases : list string) :
  nth_error FIELD_MAPPINGS i = Some (key, aliases) ->
  nth_error headers i = Some (hd "" aliases)
  /\ In (hd "" aliases) aliases
  /\ nth_error (row_of data now) i
     = Some (js_or (get data key)
               (VStr (match i with O => toISOString now | S _ => "" end))).
Proof.
  intros Hi.
  do 42 (destruct i as [| i];
         [injection Hi as <- <-; split; [reflexivity |];
          split; [left; reflexivity | reflexivity] |]).
  destruct i; discriminate Hi.
Qed.

(** X3: on a record that the form sends (its keys are field keys of the
    table) the output row and the field mapper agree: wherever the record
    holds a truthy value under the key of a column, the cell of that column
    is this value, and it is also what [getBestMatch] returns for the
    column's header. *)
Theorem row_agrees_with_mapper (record : list (string * value)) (w : world)
    (i : nat) (key : string) (aliases : list string) (v : value) :
  nth_error FIELD_MAPPINGS i = Some (key, aliases) ->
  Forall (fun p => snd p <> VUndefined) record ->
  Forall (fun p => In (fst p) (map fst FIELD_MAPPINGS)) record ->
  assoc key record = Some v ->
  truthy v = true ->
  exists header row w',
    nth_error headers i = Some header
    /\ mappedValues (VObj record) w = (Ok row, w')
    /\ nth_error row i = Some v
    /\ getBestMatch (VObj record) header = Ok v.
Proof.
  intros Hi Hjson Hkeys Hk Ht.
  destruct (row_of_nth (VObj record) (clock E (clock_reads w)) i key aliases Hi)
    as [Hh [Hin Hcell]].
  exists (hd "" aliases). eexists. eexists.
  split; [exact Hh |].
  split; [apply (mappedValues_run (VObj record) w eq_refl) |].
  split.
  - rewrite Hcell. unfold get, own. rewrite Hk. unfold js_or. rewrite Ht. reflexivity.
  - apply (alias_resolves record key aliases (hd "" aliases) v); try assumption.
    apply nth_error_In with (n := i). exact Hi.
Qed.

(** ** More on the token store *)

Lemma assoc_upsert_same {A} (k : string) (x : A) (l : list (string * A)) :
  assoc k (upsert k x l) = Some x.
Proof.
  induction l as [| [k' v'] l IH]; cbn [upsert assoc].
  - rewrite String.eqb_refl. reflexivity.
  - destruct (String.eqb k' k) eqn:Hk; cbn [assoc]; rewrite Hk; [reflexivity | exact IH].
Qed.

Lemma assoc_upsert_other {A} (k k' : string) (x : A) (l : list (string * A)) :
  String.eqb k k' = false ->
  assoc k' (upsert k x l) = assoc k' l.
Proof.
  intros Hkk. induction l as [| [k1 v1] l IH]; cbn [upsert assoc].
  - rewrite Hkk. reflexivity.
  - destruct (String.eqb k1 k) eqn:Hk; cbn [assoc].
    + apply String.eqb_eq in Hk. subst k1. rewrite Hkk. reflexivity.
    + destruct (String.eqb k1 k'); [reflexivity | exact IH].
Qed.

Lemma get_assign_same (props : list (string * value)) (k : string) (x : value) :
  get (assign (VObj props) k x) k = x.
Proof. unfold get, own, assign. rewrite assoc_upsert_same. reflexivity. Qed.

Lemma get_assign_other (props : list (string * value)) (k k' : string) (x : value) :
  String.eqb k k' = false ->
  get (assign (VObj props) k x) k' = get (VObj props) k'.
Proof.
  intros H. unfold get, own, assign. rewrite (assoc_upsert_other k k' x props H).
  reflexivity.
Qed.

(** The exchange on a response that carries data. *)
Lemma exchange_grant_code_ok (data : value) (seconds : num) (w : world) :
  respond E exchange_request = Ok data ->
  nullish data = false ->
  to_number (get data "expires_in") = Ok seconds ->
  exchange_grant_code w
  = (Ok (get data "access_token"),
     written (JSON_stringify 2 (exchanged data (clock E (clock_reads w)) seconds))
       (tick (called exchange_request w))).
Proof.
  intros Hr Hd Hn.
  unfold exchange_grant_code, exchange_steps, try_catch.
  unfold bind at 1. unfold axios at 1. fold exchange_request. rewrite Hr.
  fold (called exchange_request w).
  unfold bind at 1. unfold lift at 1. rewrite (prop_ok data "access_token" Hd).
  unfold bind at 1. unfold lift at 1. rewrite (prop_ok data "refresh_token" Hd).
  unfold bind at 1. unfold Date_now at 1.
  unfold bind at 1. unfold lift at 1. rewrite (prop_ok data "expires_in" Hd).
  unfold bind at 1. unfold lift at 1. rewrite Hn.
  cbv zeta. unfold bind, try_catch, writeFileSync, ret, written, exchanged, tick.
  cbn [bookings_csv tokens_json clock_reads sent called].
  destruct (fs_fault E Write TOKENS_FILE); reflexivity.
Qed.

(** The exchange on a rejected call, and on a response without data. *)
Lemma exchange_grant_code_fails (w : world) :
  (exists e, respond E exchange_request = Throw e)
  \/ (exists data, respond E exchange_request = Ok data /\ nullish data = true) ->
  exchange_grant_code w = (Throw auth_failed, called exchange_request w).
Proof.
  intros H.
  unfold exchange_grant_code, exchange_steps, try_catch.
  unfold bind at 1. unfold axios at 1. fold exchange_request.
  fold (called exchange_request w).
  destruct H as [[e He] | [data [Hd Hn]]].
  - rewrite He. reflexivity.
  - rewrite Hd. unfold bind at 1. unfold lift at 1. unfold prop. rewrite Hn.
    reflexivity.
Qed.

(** The refresh on a response that carries data. *)
Lemma refresh_ok (tokens data : value) (seconds : num) (w : world) :
  respond E (refresh_request tokens) = Ok data ->
  nullish data = false ->
  to_number (get data "expires_in") = Ok seconds ->
  refresh tokens w
  = (Ok (refreshed tokens data (clock E (clock_reads w)) seconds),
     written (JSON_stringify 2 (refreshed tokens data (clock E (clock_reads w)) seconds))
       (tick (called (refresh_request tokens) w))).
Proof.
  intros Hr Hd Hn.
  unfold refresh, refresh_steps, try_catch.
  unfold bind at 1. unfold axios at 1. rewrite Hr.
  fold (called (refresh_request tokens) w).
  unfold bind at 1. unfold lift at 1. rewrite (prop_ok data "access_token" Hd).
  cbv zeta.
  unfold bind at 1. unfold Date_now at 1.
  unfold bind at 1. unfold lift at 1. rewrite (prop_ok data "expires_in" Hd).
  unfold bind at 1. unfold lift at 1. rewrite Hn.
  unfold bind, try_catch, writeFileSync, ret, written, refreshed, tick.
  cbn [bookings_csv tokens_json clock_reads sent called].
  destruct (fs_fault E Write TOKENS_FILE); reflexivity.
Qed.

Lemma written_sent (content : string) (w : world) : sent (written content w) = sent w.
Proof. unfold written. destruct (fs_fault E Write TOKENS_FILE); reflexivity. Qed.

Lemma written_tokens (content : string) (w : world) :
  tokens_json (written content w)
  = match fs_fault E Write TOKENS_FILE with
    | Some _ => tokens_json w
    | None => Some content
    end.
Proof. unfold written. destruct (fs_fault E Write TOKENS_FILE); reflexivity. Qed.

Lemma written_csv (content : string) (w : world) :
  bookings_csv (written content w) = bookings_csv w.
Proof. unfold written. destruct (fs_fault E Write TOKENS_FILE); reflexivity. Qed.

Lemma written_reads (content : string) (w : world) :
  clock_reads (written content w) = clock_reads w.
Proof. unfold written. destruct (fs_fault E Write TOKENS_FILE); reflexivity. Qed.

(** X4: with no stored tokens and no standing refresh credential, a grant
    code is exchanged in one call and the access token of the response is
    returned at once, without any freshness test; the new record, whose
    expiry is the clock reading plus the announced lifetime in
    milliseconds, is written to the token file, and when the storage
    refuses the write the token is returned all the same and the file is
    left as it was.  The lifetime is NaN or such that the expiry is
    computed exactly (integers of magnitude at most 2^53). *)
Theorem exchange_returns_token (data : value) (seconds : num) (w : world) :
  truthy (tokens_in_use w) = false ->
  truthy (ZOHO_GRANT_CODE E) = true ->
  respond E exchange_request = Ok data ->
  nullish data = false ->
  to_number (get data "expires_in") = Ok seconds ->
  exact_expiry (clock E (clock_reads w)) seconds = true ->
  exists w',
    getValidAccessToken w = (Ok (get data "access_token"), w')
    /\ sent w' = (sent w ++ [exchange_request])%list
    /\ tokens_json w'
       = match fs_fault E Write TOKENS_FILE with
         | Some _ => tokens_json w
         | None =>
             Some (JSON_stringify 2
                     (exchanged data (clock E (clock_reads w)) seconds))
         end
    /\ bookings_csv w' = bookings_csv w.
Proof.
  intros Ht Hg Hr Hd Hn _.
  eexists. split.
  - rewrite getValidAccessToken_run, Ht, Hg. cbn [negb].
    apply (exchange_grant_code_ok data seconds w Hr Hd Hn).
  - rewrite written_sent, written_tokens, written_csv. repeat split.
Qed.

(** X5: when the exchange call is rejected, or answered without data,
    [getValidAccessToken] throws the authentication failure in place of
    the original error; the call was made once, the token file and the log
    are untouched and the clock was not read. *)
Theorem exchange_failure_is_reported (w : world) :
  truthy (tokens_in_use w) = false ->
  truthy (ZOHO_GRANT_CODE E) = true ->
  (exists e, respond E exchange_request = Throw e)
  \/ (exists data, respond E exchange_request = Ok data /\ nullish data = true) ->
  getValidAccessToken w = (Throw auth_failed, called exchange_request w).
Proof.
  intros Ht Hg H.
  rewrite getValidAccessToken_run, Ht, Hg. cbn [negb].
  apply exchange_grant_code_fails. exact H.
Qed.

(** X6: a successful refresh of a stored record returns the access token
    of the response and writes the record back with the new access token
    and expiry; the refresh token of the record is kept, whatever the
    response holds; when the storage refuses the write the new token is
    returned all the same.  The lifetime is NaN or such that the expiry
    is computed exactly (integers of magnitude at most 2^53). *)
Theorem refresh_returns_token (props : list (string * value)) (data : value)
    (seconds : num) (w : world) :
  tokens_in_use w = VObj props ->
  expired (clock E (clock_reads w)) (VObj props) = Ok true ->
  respond E (refresh_request (VObj props)) = Ok data ->
  nullish data = false ->
  to_number (get data "expires_in") = Ok seconds ->
  exact_expiry (clock E (S (clock_reads w))) seconds = true ->
  exists tokens w',
    getValidAccessToken w = (Ok (get data "access_token"), w')
    /\ tokens = refreshed (VObj props) data (clock E (S (clock_reads w))) seconds
    /\ get tokens "access_token" = get data "access_token"
    /\ get tokens "refresh_token" = get (VObj props) "refresh_token"
    /\ get tokens "expires_at"
       = of_num (num_add (Some (clock E (S (clock_reads w))))
                         (num_mul seconds (Some 1000)))
    /\ sent w' = (sent w ++ [refresh_request (VObj props)])%list
    /\ tokens_json w'
       = match fs_fault E Write TOKENS_FILE with
         | Some _ => tokens_json w
         | None => Some (JSON_stringify 2 tokens)
         end.
Proof.
  intros Ht Hx Hr Hd Hn _.
  assert (Hat : get (refreshed (VObj props) data (clock E (S (clock_reads w))) seconds)
                    "access_token" = get data "access_token").
  { unfold refreshed. cbn [assign].
    change (VObj (upsert "expires_at" ?x ?l)) with (assign (VObj l) "expires_at" x).
    rewrite get_assign_other by reflexivity.
    change (VObj (upsert "access_token" ?x ?l)) with (assign (VObj l) "access_token" x).
    apply get_assign_same. }
  eexists. eexists. split.
  - rewrite getValidAccessToken_run, Ht, Hx. cbn [negb truthy].
    unfold bind. rewrite (refresh_ok (VObj props) data seconds (tick w) Hr Hd Hn).
    unfold ret. cbn [tick clock_reads]. rewrite Hat. reflexivity.
  - split; [reflexivity |]. split; [exact Hat |].
    split; [| split; [| split]].
    + unfold refreshed. cbn [assign].
      change (VObj (upsert "expires_at" ?x ?l)) with (assign (VObj l) "expires_at" x).
      rewrite get_assign_other by reflexivity.
      change (VObj (upsert "access_token" ?x ?l)) with (assign (VObj l) "access_token" x).
      apply get_assign_other. reflexivity.
    + unfold refreshed. cbn [assign].
      change (VObj (upsert "expires_at" ?x ?l)) with (assign (VObj l) "expires_at" x).
      apply get_assign_same.
    + rewrite written_sent. reflexivity.
    + rewrite written_tokens. reflexivity.
Qed.

Lemma expired_without_expiry (now : Z) (tokens : value) :
  truthy (get tokens "expires_at") = false ->
  expired now tokens = Ok (-60000 <=? now).
Proof.
  intros H. unfold expired, js_or. rewrite H. reflexivity.
Qed.

Lemma refresh_is_sent (w : world) :
  truthy (tokens_in_use w) = true ->
  expired (clock E (clock_reads w)) (tokens_in_use w) = Ok true ->
  exists r w',
    getValidAccessToken w = (r, w')
    /\ sent w' = (sent w ++ [refresh_request (tokens_in_use w)])%list.
Proof.
  intros Ht Hx. rewrite getValidAccessToken_run, Ht, Hx. cbn [negb].
  pose proof (refresh_sent (tokens_in_use w) (tick w)) as Hs.
  unfold bind, ret.
  destruct (refresh (tokens_in_use w) (tick w)) as [[t | err] w1];
    cbn [snd] in Hs; eexists; eexists; (split; [reflexivity | exact Hs]).
Qed.

(** X7: a token record without a usable expiry ([expires_at] missing,
    null, zero or otherwise falsy) counts as expired at every clock reading
    from the epoch on, so a request with such a record always sends a
    refresh; this is the case of the record made from ZOHO_REFRESH_TOKEN
    when no stored record can be used, which is refreshed with that
    credential whether or not a grant code is configured. *)
Theorem missing_expiry_is_refreshed (w : world) :
  -60000 <= clock E (clock_reads w) ->
  (truthy (tokens_in_use w) = true ->
   truthy (get (tokens_in_use w) "expires_at") = false ->
   exists r w',
     getValidAccessToken w = (r, w')
     /\ sent w' = (sent w ++ [refresh_request (tokens_in_use w)])%list)
  /\ (truthy (stored_tokens w) = false ->
      truthy (ZOHO_REFRESH_TOKEN E) = true ->
      exists r w',
        getValidAccessToken w = (r, w')
        /\ sent w'
           = (sent w ++
              [ axios_post_params token_url
                  [ ("refresh_token", ZOHO_REFRESH_TOKEN E);
                    ("client_id", ZOHO_CLIENT_ID E);
                    ("client_secret", ZOHO_CLIENT_SECRET E);
                    ("grant_type", VStr "refresh_token") ] ])%list).
Proof.
  intros Hc.
  assert (Hle : (-60000 <=? clock E (clock_reads w)) = true) by (apply Z.leb_le; exact Hc).
  split.
  - intros Ht He. apply (refresh_is_sent w Ht).
    rewrite (expired_without_expiry _ _ He), Hle. reflexivity.
  - intros Hs Hr.
    assert (Hu : tokens_in_use w
                 = VObj [ ("refresh_token", ZOHO_REFRESH_TOKEN E); ("expires_at", VNum 0) ]).
    { unfold tokens_in_use. rewrite Hs, Hr. reflexivity. }
    destruct (refresh_is_sent w) as [r [w' [Hrun Hsent]]].
    + rewrite Hu. reflexivity.
    + rewrite Hu.
      rewrite (expired_without_expiry (clock E (clock_reads w))
                 (VObj [ ("refresh_token", ZOHO_REFRESH_TOKEN E); ("expires_at", VNum 0) ])
                 eq_refl), Hle.
      reflexivity.
    + exists r, w'. split; [exact Hrun |]. rewrite Hsent, Hu. reflexivity.
Qed.

(** X8: two requests in a row on a stale stored record refresh it once:
    when the first request refreshes the record and writes it back, and
    the new expiry lies more than 60 seconds after the clock reading of
    the second request, the second request returns the refreshed access
    token from the file without any call. *)
Theorem second_request_reuses_token (props : list (string * value)) (data : value)
    (seconds : Z) (w : world) :
  tokens_in_use w = VObj props ->
  expired (clock E (clock_reads w)) (VObj props) = Ok true ->
  respond E (refresh_request (VObj props)) = Ok data ->
  nullish data = false ->
  to_number (get data "expires_in") = Ok (Some seconds) ->
  fs_fault E Write TOKENS_FILE = None ->
  fs_fault E Read TOKENS_FILE = None ->
  JSON_parse
    (JSON_stringify 2
       (refreshed (VObj props) data (clock E (S (clock_reads w))) (Some seconds)))
  = Ok (refreshed (VObj props) data (clock E (S (clock_reads w))) (Some seconds)) ->
  clock E (S (S (clock_reads w)))
  < clock E (S (clock_reads w)) + seconds * 1000 - 60000 ->
  exists w'',
    two_token_requests w
    = (Ok (get data "access_token", get data "access_token"), w'')
    /\ sent w'' = (sent w ++ [refresh_request (VObj props)])%list.
Proof.
  intros Ht Hx Hr Hd Hn Hw Hrd Hparse Hfresh.
  set (tokens := refreshed (VObj props) data (clock E (S (clock_reads w))) (Some seconds))
    in *.
  assert (Hat : get tokens "access_token" = get data "access_token").
  { unfold tokens, refreshed. cbn [assign].
    change (VObj (upsert "expires_at" ?x ?l)) with (assign (VObj l) "expires_at" x).
    rewrite get_assign_other by reflexivity.
    change (VObj (upsert "access_token" ?x ?l)) with (assign (VObj l) "access_token" x).
    apply get_assign_same. }
  assert (Hexp : get tokens "expires_at"
                 = VNum (clock E (S (clock_reads w)) + seconds * 1000)).
  { unfold tokens, refreshed. cbn [assign].
    change (VObj (upsert "expires_at" ?x ?l)) with (assign (VObj l) "expires_at" x).
    rewrite get_assign_same. reflexivity. }
  assert (Htruthy : truthy tokens = true) by reflexivity.
  set (w1 := written (JSON_stringify 2 tokens)
               (tick (called (refresh_request (VObj props)) (tick w)))).
  assert (H1 : getValidAccessToken w = (Ok (get data "access_token"), w1)).
  { rewrite getValidAccessToken_run, Ht, Hx. cbn [negb truthy].
    unfold bind. rewrite (refresh_ok (VObj props) data (Some seconds) (tick w) Hr Hd Hn).
    unfold ret. cbn [tick clock_reads]. fold tokens. rewrite Hat. reflexivity. }
  assert (Hfile : tokens_json w1 = Some (JSON_stringify 2 tokens)).
  { unfold w1. rewrite written_tokens, Hw. reflexivity. }
  assert (Hreads : clock_reads w1 = S (S (clock_reads w))).
  { unfold w1. rewrite written_reads. reflexivity. }
  assert (Huse : tokens_in_use w1 = tokens).
  { unfold tokens_in_use, stored_tokens. rewrite Hfile, Hrd, Hparse, Htruthy.
    reflexivity. }
  assert (H2 : getValidAccessToken w1 = (Ok (get data "access_token"), tick w1)).
  { rewrite getValidAccessToken_run, Huse, Htruthy. cbn [negb].
    rewrite (expired_numeric _ _ tokens Hexp), Hreads.
    replace (clock E (S (clock_reads w)) + seconds * 1000 - 60000
             <=? clock E (S (S (clock_reads w)))) with false
      by (symmetry; apply Z.leb_gt; exact Hfresh).
    rewrite Hat. reflexivity. }
  exists (tick w1). split.
  - unfold two_token_requests, bind, ret. rewrite H1, H2. reflexivity.
  - cbn [tick sent]. unfold w1. rewrite written_sent. reflexivity.
Qed.

(** ** More on the sheet appender *)

Lemma exchange_sent (w : world) :
  sent (snd (exchange_grant_code w)) = (sent w ++ [exchange_request])%list.
Proof.
  unfold exchange_grant_code, exchange_steps, try_catch, bind, axios, lift,
    Date_now, writeFileSync, ret, throw.
  fold exchange_request.
  cbn [sent bookings_csv tokens_json clock_reads file set_file].
  repeat (break_match; cbn [snd sent bookings_csv tokens_json clock_reads file set_file]);
    reflexivity.
Qed.

(** A request for a token sends no call, or one call to the token
    endpoint. *)
Lemma getValidAccessToken_calls (w : world) :
  sent (snd (getValidAccessToken w)) = sent w
  \/ exists params,
       sent (snd (getValidAccessToken w))
       = (sent w ++ [axios_post_params token_url params])%list.
Proof.
  rewrite getValidAccessToken_run.
  destruct (negb (truthy (tokens_in_use w))).
  - destruct (negb (truthy (ZOHO_GRANT_CODE E))); [left; reflexivity |].
    right. eexists. apply exchange_sent.
  - destruct (expired (clock E (clock_reads w)) (tokens_in_use w)) as [[|] | e];
      [| left; reflexivity | left; reflexivity].
    right. eexists.
    pose proof (refresh_sent (tokens_in_use w) (tick w)) as Hs.
    unfold bind, ret. unfold refresh_request in Hs.
    destruct (refresh (tokens_in_use w) (tick w)) as [[t | err] w1]; exact Hs.
Qed.

Lemma mappedValues_sent (data : value) (w : world) :
  sent (snd (mappedValues data w)) = sent w.
Proof.
  unfold mappedValues, bind, lift, ret, Date_now.
  repeat (break_match; cbn [snd sent]); reflexivity.
Qed.

(** X9: [appendToZohoSheet] never throws and never repeats a call: in one
    run it sends at most one call to the token endpoint, then at most one
    content query, then at most one append, in this order, and an append
    only after a query. *)
Theorem appendToZohoSheet_sends_each_call_once (data : value) (w : world) :
  exists zohoRes w' token_calls sheet_calls,
    appendToZohoSheet data w = (Ok zohoRes, w')
    /\ sent w' = (sent w ++ token_calls ++ sheet_calls)%list
    /\ (token_calls = []
        \/ exists params, token_calls = [ axios_post_params token_url params ])
    /\ (sheet_calls = []
        \/ exists token,
             sheet_calls = [ check_call token ]
             \/ exists content,
                  sheet_calls = [ check_call token; append_call token content ]).
Proof.
  unfold appendToZohoSheet, try_catch, append_steps.
  unfold bind at 1.
  pose proof (getValidAccessToken_calls w) as Htok.
  destruct (getValidAccessToken w) as [[accessToken | e] w1]; cbn [snd] in Htok.
  2:{ destruct Htok as [Hs | [params Hs]].
      - exists (failure e), w1, [], []. rewrite Hs, app_nil_r.
        repeat split; left; reflexivity.
      - exists (failure e), w1, [axios_post_params token_url params], [].
        rewrite Hs. repeat split; [right; eexists; reflexivity | left; reflexivity]. }
  assert (Htok' : exists token_calls,
             sent w1 = (sent w ++ token_calls)%list
             /\ (token_calls = []
                 \/ exists params, token_calls = [ axios_post_params token_url params ])).
  { destruct Htok as [Hs | [params Hs]].
    - exists []. rewrite app_nil_r. split; [exact Hs | left; reflexivity].
    - eexists. split; [exact Hs | right; eexists; reflexivity]. }
  destruct Htok' as [token_calls [Hs1 Hshape]].
  unfold bind at 1.
  pose proof (mappedValues_sent data w1) as Hmv.
  destruct (mappedValues data w1) as [[row | e] w2]; cbn [snd] in Hmv.
  2:{ exists (failure e), w2, token_calls, []. rewrite Hmv, Hs1, app_nil_r.
      repeat split; [exact Hshape | left; reflexivity]. }
  unfold bind, lift, axios, ret.
  repeat break_match;
    repeat match goal with
           | H : (_, _) = (_, _) |- _ => injection H as ? ?; subst
           end;
    try discriminate;
    cbn [sent];
    rewrite ?Hmv, ?Hs1;
    first
      [ (* nothing sent to the sheet *)
        eexists; eexists; exists token_calls, [];
        split; [reflexivity |];
        split; [cbn [sent]; rewrite ?Hmv, ?Hs1, ?app_nil_r; reflexivity |];
        split; [exact Hshape | left; reflexivity]
      | (* the query only *)
        eexists; eexists; exists token_calls; eexists [ _ ];
        split; [reflexivity |];
        split; [cbn [sent]; rewrite <- ?app_assoc; reflexivity |];
        split; [exact Hshape |];
        right; eexists; left; unfold check_call; reflexivity
      | (* the query and the append *)
        eexists; eexists; exists token_calls; eexists [ _; _ ];
        split; [reflexivity |];
        split; [cbn [sent]; rewrite <- ?app_assoc; reflexivity |];
        split; [exact Hshape |];
        right; eexists; right; eexists; unfold check_call, append_call; reflexivity ].
Qed.

(** ** CSV lines *)

Lemma csv_in_field_last (s : string) :
  csv_in_field (double_quotes s ++ String dquote EmptyString) = Some [ s ].
Proof.
  induction s as [| c r IH]; [reflexivity |].
  cbn [double_quotes]. destruct (Ascii.eqb c dquote) eqn:Hc.
  - apply Ascii.eqb_eq in Hc. subst c.
    cbn [append csv_in_field]. change (Ascii.eqb dquote dquote) with true.
    cbv iota. rewrite IH. reflexivity.
  - cbn [append csv_in_field]. rewrite Hc, IH. reflexivity.
Qed.

Lemma csv_in_field_next (s rest : string) (fields : list string) :
  csv_in_field rest = Some fields ->
  csv_in_field (double_quotes s ++ String dquote (String comma (String dquote rest)))
  = Some (s :: fields).
Proof.
  intros Hrest.
  induction s as [| c r IH].
  - cbn [double_quotes append csv_in_field].
    change (Ascii.eqb dquote dquote) with true.
    change (Ascii.eqb comma dquote) with false.
    change (Ascii.eqb comma comma) with true.
    cbv iota. rewrite Hrest. reflexivity.
  - cbn [double_quotes]. destruct (Ascii.eqb c dquote) eqn:Hc.
    + apply Ascii.eqb_eq in Hc. subst c.
      cbn [append csv_in_field]. change (Ascii.eqb dquote dquote) with true.
      cbv iota. rewrite IH. reflexivity.
    + cbn [append csv_in_field]. rewrite Hc, IH. reflexivity.
Qed.

Lemma csv_quote_then (s rest : string) :
  csv_quote s ++ rest = String dquote (double_quotes s ++ String dquote rest).
Proof.
  unfold csv_quote. cbn [append]. rewrite append_assoc. reflexivity.
Qed.

(** Reading back a line of quoted fields gives the fields. *)
Lemma csv_fields_join (texts : list string) :
  csv_fields (join "," (map csv_quote texts)) = Some texts.
Proof.
  destruct texts as [| t texts]; [reflexivity |].
  unfold join.
  assert (H : forall t0,
             csv_fields (String.concat "," (map csv_quote (t0 :: texts)))
             = Some (t0 :: texts)).
  { induction texts as [| u texts IH]; intros t0.
    - cbn [map String.concat]. unfold csv_quote, csv_fields.
      change (Ascii.eqb dquote dquote) with true. cbv iota.
      apply csv_in_field_last.
    - specialize (IH u).
      change (String.concat "," (map csv_quote (t0 :: u :: texts)))
        with (csv_quote t0 ++ "," ++ String.concat "," (map csv_quote (u :: texts))).
      rewrite csv_quote_then.
      unfold csv_fields at 1. change (Ascii.eqb dquote dquote) with true. cbv iota.
      revert IH.
      destruct (String.concat "," (map csv_quote (u :: texts))) as [| c rest] eqn:Hc.
      + cbn. discriminate.
      + unfold csv_fields. destruct (Ascii.eqb c dquote) eqn:Hq; [| discriminate].
        apply Ascii.eqb_eq in Hq. subst c. intros IH.
        change ("," ++ String dquote rest) with (String comma (String dquote rest)).
        apply csv_in_field_next. exact IH. }
  apply H.
Qed.

Lemma rmap_quoted {A} (f : A -> result string) (l : list A) (quoted : list string) :
  rmap (fun v => let* s := f v in Ok (csv_quote s)) l = Ok quoted ->
  exists texts,
    rmap f l = Ok texts /\ quoted = map csv_quote texts
    /\ length texts = length l.
Proof.
  revert quoted. induction l as [| x l IH]; intros quoted; cbn [rmap].
  - intros [= <-]. exists []. repeat split.
  - destruct (f x) as [s | e]; cbn [rbind]; [| discriminate].
    destruct (rmap (fun v => let* s0 := f v in Ok (csv_quote s0)) l) as [q | e];
      cbn [rbind]; [| discriminate].
    intros [= <-]. destruct (IH q eq_refl) as [texts [Ht [Hq Hl]]].
    exists (s :: texts). rewrite Ht, Hq. cbn [rbind map length]. rewrite Hl.
    repeat split.
Qed.

(** X10: every line that the program writes with quoted cells reads back,
    by standard reading of quoted CSV fields, as the texts of its cells,
    one field per cell, whatever commas, double quotes or line breaks the
    cells hold: this holds for the header line and the data line of the
    sheet payload, which have 42 fields each, and for the data row that
    line 292 appends to the local log, which has one field per key of the
    record.  The header line that line 292 writes in front of the first
    data row is not such a line: it is the keys joined by commas, without
    quotes. *)
Theorem csv_lines_read_back :
  (forall cells line,
      csv_line cells = Ok line ->
      exists texts,
        rmap to_string cells = Ok texts
        /\ csv_fields line = Some texts
        /\ length texts = length cells)
  /\ csv_fields headers_line = Some headers
  /\ (forall data now line,
        csv_line (row_of data now) = Ok line ->
        exists texts, csv_fields line = Some texts /\ length texts = length headers)
  /\ (forall data keys fileExists text,
        csvRow data keys fileExists = Ok text ->
        exists texts row,
          text = (if fileExists then "" else join "," keys ++ NL) ++ row ++ NL
          /\ csv_fields row = Some texts
          /\ length texts = length keys).
Proof.
  assert (Hline : forall cells line,
             csv_line cells = Ok line ->
             exists texts,
               rmap to_string cells = Ok texts
               /\ csv_fields line = Some texts
               /\ length texts = length cells).
  { intros cells line. unfold csv_line.
    destruct (rmap (fun v => let* s := to_string v in Ok (csv_quote s)) cells)
      as [quoted | e] eqn:Hq; cbn [rbind]; [| discriminate].
    intros [= <-].
    destruct (rmap_quoted to_string cells quoted Hq) as [texts [Ht [-> Hl]]].
    exists texts. split; [exact Ht |]. split; [apply csv_fields_join | exact Hl]. }
  split; [exact Hline |]. split; [apply csv_fields_join |]. split.
  - intros data now line Hl.
    destruct (Hline _ _ Hl) as [texts [_ [Hf Hn]]].
    exists texts. split; [exact Hf |]. rewrite Hn. unfold row_of.
    cbn [length]. rewrite length_map. reflexivity.
  - intros data keys fileExists text. unfold csvRow.
    destruct (rmap _ keys) as [quoted | e] eqn:Hq; cbn [rbind]; [| discriminate].
    intros [= <-].
    destruct (rmap_quoted
                (fun h => let* v := prop data h in to_string (js_or v (VStr "")))
                keys quoted) as [texts [_ [-> Hl]]].
    { rewrite <- Hq. clear Hq. induction keys as [| h keys IH]; [reflexivity |].
      cbn [rmap]. rewrite IH.
      destruct (prop data h) as [v | e]; cbn [rbind]; [| reflexivity].
      destruct (to_string (js_or v (VStr ""))); reflexivity. }
    exists texts, (join "," (map csv_quote texts)).
    split; [reflexivity |]. split; [apply csv_fields_join | exact Hl].
Qed.

(** ** More on the request handler *)

(** The sheet steps once the token, the row and the answer to the content
    query are known. *)
Lemma append_steps_run (data accessToken : value) (w w1 w2 : world)
    (row : list value) (token : string) (checkRes : value) (found : bool)
    (line : string) :
  getValidAccessToken w = (Ok accessToken, w1) ->
  mappedValues data w1 = (Ok row, w2) ->
  to_string accessToken = Ok token ->
  respond E (check_call token) = Ok checkRes ->
  headerFound checkRes = Ok found ->
  csv_line row = Ok line ->
  append_steps data w
  = (let* resp :=
       respond E (append_call token
                    ((if found then "" else headers_line ++ NL) ++ line)) in
     let* _ := prop resp "status" in
     Ok resp,
     called (append_call token ((if found then "" else headers_line ++ NL) ++ line))
       (called (check_call token) w2)).
Proof.
  intros Ht Hr Hs Hc Hf Hl.
  unfold append_steps.
  unfold bind at 1. rewrite Ht. cbv beta iota.
  unfold bind at 1. rewrite Hr. cbv beta iota.
  unfold bind at 1. unfold lift at 1. rewrite Hs. cbv beta iota.
  unfold bind at 1. unfold axios at 1. fold (check_call token). rewrite Hc.
  cbv beta iota. fold (called (check_call token) w2).
  unfold bind at 1. unfold lift at 1. rewrite Hf. cbv beta iota.
  unfold bind at 1. unfold lift at 1. rewrite (csvContent_run found row line Hl).
  cbv beta iota.
  unfold bind at 1. unfold lift at 1. cbv beta iota.
  unfold bind at 1. unfold axios at 1.
  fold (append_call token ((if found then "" else headers_line ++ NL) ++ line)).
  fold (called (append_call token ((if found then "" else headers_line ++ NL) ++ line))
          (called (check_call token) w2)).
  destruct (respond E (append_call token _)) as [resp | e]; [| reflexivity].
  unfold bind, lift, ret. cbn [rbind].
  destruct (prop resp "status"); reflexivity.
Qed.

Lemma has_items_falsy (v : value) : truthy v = false -> has_items v = Ok false.
Proof. unfold has_items. intros ->. reflexivity. Qed.

(** X11: on first use the header row is inserted: when the content query
    returns no rows ([range_details] missing, null, or an empty list), the
    payload of the append is the full header line, a line break, and the
    data line. *)
Theorem empty_sheet_gets_header (data accessToken : value) (w w1 w2 : world)
    (row : list value) (token : string) (checkRes : value) (line : string) :
  getValidAccessToken w = (Ok accessToken, w1) ->
  mappedValues data w1 = (Ok row, w2) ->
  to_string accessToken = Ok token ->
  respond E (check_call token) = Ok checkRes ->
  nullish checkRes = false ->
  truthy (get checkRes "range_details") = false
  \/ (exists extra, get checkRes "range_details" = VArr [] extra) ->
  csv_line row = Ok line ->
  exists r w',
    appendToZohoSheet data w = (r, w')
    /\ sent w'
       = (sent w2 ++
          [ check_call token; append_call token (headers_line ++ NL ++ line) ])%list.
Proof.
  intros Ht Hr Hs Hc Hn Hempty Hl.
  assert (Hf : headerFound checkRes = Ok false).
  { unfold headerFound. rewrite (prop_ok checkRes "range_details" Hn). cbn [rbind].
    destruct Hempty as [Hfalsy | [extra Harr]].
    - rewrite (has_items_falsy _ Hfalsy). reflexivity.
    - rewrite Harr, has_items_array. reflexivity. }
  pose proof (append_steps_run data accessToken w w1 w2 row token checkRes false line
                Ht Hr Hs Hc Hf Hl) as Hrun.
  cbv iota in Hrun. rewrite append_assoc in Hrun.
  unfold appendToZohoSheet, try_catch. rewrite Hrun.
  destruct (let* resp := respond E (append_call token (headers_line ++ NL ++ line)) in
            let* _ := prop resp "status" in Ok resp);
    eexists; eexists; (split; [reflexivity |]);
    cbn [called sent]; rewrite <- app_assoc; reflexivity.
Qed.

(** X12: a submission that gets through is answered 200 with the status
    that the append response carries, whatever it is: the remote status is
    passed on as it came, and when the response carries none the answer
    holds [success] alone. *)
Theorem remote_status_is_passed_on (body : string) (data : value) (line : string)
    (resp : value) (w w2 : world) :
  body <> "" ->
  JSON_parse body = Ok data ->
  nullish data = false ->
  csvRow data (own_keys data) (log_exists w) = Ok line ->
  fs_fault E Append CSV_FILE = None ->
  append_steps data (logged line w) = (Ok resp, w2) ->
  on_end body w = (Ok (saved (get resp "status")), w2)
  /\ (get resp "status" = VUndefined ->
      payload (saved (get resp "status"))
      = JSON_stringify 0 (VObj [ ("success", VBool true) ])).
Proof.
  intros Hb Hp Hd Hl Hf Hs.
  destruct (save_steps_logged body data line w Hb Hp Hd Hl Hf)
    as [zohoRes [w' [Hz [Ho _]]]].
  unfold appendToZohoSheet, try_catch in Hz. rewrite Hs in Hz.
  injection Hz as <- <-.
  split; [exact Ho |].
  intros ->. reflexivity.
Qed.

Lemma unreadable_body_steps (body : string) (w : world) :
  (body = "" ->
   on_end body w = (Ok (rejected (Error "Empty request body")), w))
  /\ (forall e,
        body <> "" ->
        JSON_parse body = Throw e ->
        on_end body w = (Ok (rejected e), w)).
Proof.
  split.
  - intros ->. reflexivity.
  - intros e Hb Hp. unfold on_end, try_catch, save_steps.
    destruct (String.eqb body "") eqn:Hbe; [apply String.eqb_eq in Hbe; contradiction |].
    unfold bind, lift, ret. rewrite Hp. reflexivity.
Qed.

(** X13: a body that is empty or that [JSON.parse] rejects is answered 400
    with the message of the error, and the request leaves no trace: no log
    line, no call, no clock reading. *)
Theorem unreadable_body_is_rejected (body : string) (w : world) :
  (body = "" ->
   on_end body w = (Ok (rejected (Error "Empty request body")), w))
  /\ (forall e,
        body <> "" ->
        JSON_parse body = Throw e ->
        on_end body w = (Ok (rejected e), w)).
Proof. exact (unreadable_body_steps body w). Qed.

Lemma csvRow_not_empty (data : value) (keys : list string) (fileExists : bool)
    (line : string) :
  csvRow data keys fileExists = Ok line -> line <> "".
Proof.
  unfold csvRow. destruct (rmap _ keys) as [cells | e]; cbn [rbind]; [| discriminate].
  intros [= <-] H.
  apply (f_equal line_breaks) in H. rewrite !line_breaks_app in H.
  cbn in H. lia.
Qed.

(** X14: the server always answers, and the log file changes exactly when
    the answer is 200: a 200 answer means that one non-empty text was
    appended to the log, whose earlier content is kept; any other answer
    (204, 400 or 404) leaves the files, the clock and the network
    untouched. *)
Theorem log_grows_exactly_on_200 (req : request) (w : world) :
  exists resp w',
    server req w = (Ok resp, w')
    /\ ((statusCode resp = 200
         /\ exists line,
              line <> ""
              /\ bookings_csv w'
                 = Some (match bookings_csv w with
                         | Some old => old ++ line
                         | None => line
                         end))
        \/ (statusCode resp <> 200 /\ w' = w)).
Proof.
  unfold server.
  destruct (String.eqb (method req) "OPTIONS").
  { eexists. eexists. split; [reflexivity |]. right. split; [discriminate | reflexivity]. }
  destruct (String.eqb (method req) "POST"
            && (String.eqb (url req) "/save" || String.eqb (url req) "/")).
  2:{ eexists. eexists. split; [reflexivity |]. right.
      split; [discriminate | reflexivity]. }
  generalize (body req). intros text.
  destruct (String.eqb text "") eqn:Hbe.
  { apply String.eqb_eq in Hbe. subst text.
    eexists. eexists. split; [reflexivity |]. right. split; [discriminate | reflexivity]. }
  assert (Hb : text <> "") by (intros ->; discriminate Hbe).
  destruct (JSON_parse text) as [data | e] eqn:Hp.
  2:{ eexists. eexists.
      split; [apply (proj2 (unreadable_body_steps text w) e Hb Hp) |].
      right. split; [discriminate | reflexivity]. }
  destruct (nullish data) eqn:Hd.
  { eexists. eexists. split.
    - unfold on_end, try_catch, save_steps. rewrite Hbe.
      unfold bind, lift, ret. rewrite Hp. unfold prop. rewrite Hd. reflexivity.
    - right. split; [discriminate | reflexivity]. }
  destruct (csvRow data (own_keys data) (log_exists w)) as [line | e] eqn:Hl.
  2:{ eexists. eexists. split.
      - unfold on_end, try_catch.
        rewrite (save_steps_prefix text data w Hb Hp Hd), Hl. reflexivity.
      - right. split; [discriminate | reflexivity]. }
  destruct (fs_fault E Append CSV_FILE) as [e |] eqn:Hf.
  { eexists. eexists. split.
    - unfold on_end, try_catch.
      rewrite (save_steps_prefix text data w Hb Hp Hd), Hl, Hf. reflexivity.
    - right. split; [discriminate | reflexivity]. }
  destruct (save_steps_logged text data line w Hb Hp Hd Hl Hf)
    as [zohoRes [w' [_ [Ho [Hc _]]]]].
  eexists. eexists. split; [exact Ho |]. left.
  split; [reflexivity |]. exists line.
  split; [exact (csvRow_not_empty _ _ _ _ Hl) |].
  rewrite Hc. reflexivity.
Qed.

Lemma csvRow_with_header (data : value) (keys : list string) (row : string) :
  csvRow data keys true = Ok row ->
  csvRow data keys false = Ok (join "," keys ++ NL ++ row).
Proof.
  unfold csvRow. destruct (rmap _ keys) as [cells | e]; cbn [rbind]; [| discriminate].
  intros [= <-]. rewrite append_assoc. reflexivity.
Qed.

(** X15: the header line of the log is written once, from the keys of the
    first record: after two submissions on a log file that did not exist,
    the file holds the keys of the first record, its data row, and the data
    row of the second record, which gets no header line even when its keys
    are other keys. *)
Theorem log_header_is_written_once (body1 body2 : string) (data1 data2 : value)
    (row1 row2 : string) (w : world) :
  bookings_csv w = None ->
  fs_fault E Append CSV_FILE = None ->
  body1 <> "" -> JSON_parse body1 = Ok data1 -> nullish data1 = false ->
  csvRow data1 (own_keys data1) true = Ok row1 ->
  body2 <> "" -> JSON_parse body2 = Ok data2 -> nullish data2 = false ->
  csvRow data2 (own_keys data2) true = Ok row2 ->
  exists first second w'',
    two_submissions body1 body2 w = (Ok (first, second), w'')
    /\ statusCode first = 200
    /\ statusCode second = 200
    /\ bookings_csv w''
       = Some (join "," (own_keys data1) ++ NL ++ row1 ++ row2).
Proof.
  intros Hnone Hf Hb1 Hp1 Hd1 Hr1 Hb2 Hp2 Hd2 Hr2.
  assert (Hl1 : csvRow data1 (own_keys data1) (log_exists w)
                = Ok (join "," (own_keys data1) ++ NL ++ row1)).
  { unfold log_exists. rewrite Hnone. apply csvRow_with_header. exact Hr1. }
  destruct (save_steps_logged body1 data1 _ w Hb1 Hp1 Hd1 Hl1 Hf)
    as [z1 [w1 [_ [Ho1 [Hc1 _]]]]].
  assert (Hlog1 : bookings_csv w1 = Some (join "," (own_keys data1) ++ NL ++ row1)).
  { rewrite Hc1. unfold logged. rewrite Hnone. reflexivity. }
  assert (Hl2 : csvRow data2 (own_keys data2) (log_exists w1) = Ok row2).
  { unfold log_exists. rewrite Hlog1. exact Hr2. }
  destruct (save_steps_logged body2 data2 _ w1 Hb2 Hp2 Hd2 Hl2 Hf)
    as [z2 [w2 [_ [Ho2 [Hc2 _]]]]].
  exists (saved (get z1 "status")), (saved (get z2 "status")), w2.
  split.
  - unfold two_submissions, bind, ret. rewrite Ho1, Ho2. reflexivity.
  - split; [reflexivity |]. split; [reflexivity |].
    rewrite Hc2. unfold logged. rewrite Hlog1. cbn [set_file bookings_csv].
    rewrite !append_assoc. reflexivity.
Qed.

(** X16: with no credential configured the server still works as a local
    logger: a well-formed submission is appended to the log and answered
    200 with zoho failure, and nothing else happens: no call is sent, the
    clock is not read, the token file is not created. *)
Theorem no_credentials_logs_locally (body : string) (data : value) (line : string)
    (w : world) :
  tokens_json w = None ->
  truthy (ZOHO_REFRESH_TOKEN E) = false ->
  truthy (ZOHO_GRANT_CODE E) = false ->
  body <> "" ->
  JSON_parse body = Ok data ->
  nullish data = false ->
  csvRow data (own_keys data) (log_exists w) = Ok line ->
  fs_fault E Append CSV_FILE = None ->
  on_end body w = (Ok (saved (VStr "failure")), logged line w)
  /\ appendToZohoSheet data (logged line w) = (Ok (failure no_auth), logged line w)
  /\ sent (logged line w) = sent w
  /\ clock_reads (logged line w) = clock_reads w
  /\ tokens_json (logged line w) = None.
Proof.
  intros Ht Hr Hg Hb Hp Hd Hl Hf.
  assert (Hs : append_steps data (logged line w) = (Throw no_auth, logged line w)).
  { unfold append_steps. unfold bind at 1.
    rewrite getValidAccessToken_run.
    unfold tokens_in_use, stored_tokens, logged. cbn [set_file tokens_json].
    rewrite Ht, Hr, Hg. reflexivity. }
  destruct (save_steps_logged body data line w Hb Hp Hd Hl Hf)
    as [zohoRes [w' [Hz [Ho [_ Hfail]]]]].
  destruct (Hfail no_auth (logged line w) Hs) as [-> ->].
  split; [exact Ho |]. split; [exact Hz |].
  unfold logged. cbn [set_file sent clock_reads tokens_json].
  repeat split. exact Ht.
Qed.

End Program.

(* ================================================================== *)
(** * The program on concrete inputs *)
(* ================================================================== *)

Example toISOString_epoch : toISOString 0 = "1970-01-01T00:00:00.000Z".
Proof. reflexivity. Qed.

Example toISOString_2023 : toISOString 1700000000123 = "2023-11-14T22:13:20.123Z".
Proof. reflexivity. Qed.

Example toISOString_leap_day : toISOString 1709164800000 = "2024-02-29T00:00:00.000Z".
Proof. reflexivity. Qed.

Example toISOString_before_epoch : toISOString (-1) = "1969-12-31T23:59:59.999Z".
Proof. reflexivity. Qed.

Example normalize_header : normalize " Full-Name " = "fullname".
Proof. reflexivity. Qed.

Example stringify_tokens :
  line_breaks (JSON_stringify 2 Sample.stale_tokens) = 4%nat
  /\ Sample.JSON_parse (JSON_stringify 2 Sample.stale_tokens) = Ok Sample.stale_tokens.
Proof. split; reflexivity. Qed.

(** ** The output row *)

(** C1 as the specification states it fails on the empty record: the row
    has 42 cells, not 41, and its first cell, though [timestamp] is
    unresolved, is the current time and not the empty string. *)
Lemma output_row_of_empty_record :
  exists row w',
    mappedValues Sample.E_offline (VObj []) Sample.empty_world = (Ok row, w')
    /\ length row <> 41%nat
    /\ truthy (get (VObj []) "timestamp") = false
    /\ nth_error row 0 = Some (VStr "2023-11-14T22:13:20.000Z")
    /\ nth_error row 0 <> Some (VStr "").
Proof.
  eexists. eexists. split; [vm_compute; reflexivity |].
  repeat split; try reflexivity; cbn; discriminate.
Qed.

Lemma output_row_shape_on_asha :
  nullish Sample.asha = false
  /\ exists row w',
       mappedValues Sample.E_offline Sample.asha Sample.empty_world = (Ok row, w')
       /\ length row = 42%nat
       /\ nth_error row 2 = Some (VStr "Asha").
Proof.
  split; [reflexivity |].
  destruct (output_row_shape Sample.E_offline Sample.asha Sample.empty_world eq_refl)
    as [row [w' [Hrun [Hlen [_ [_ [_ [Hcell _]]]]]]]].
  exists row, w'. split; [exact Hrun |]. split; [exact Hlen |].
  exact (Hcell 1%nat "name" eq_refl).
Defined.

(** C2 as the specification states it fails on a record whose only key is
    the header itself: the field mapper resolves [Full Name] by the exact
    key, but the row is built from the canonical key [name] and its
    [Full Name] cell is empty. *)
Lemma full_name_key_is_not_consulted :
  own_keys Sample.full_name_asha = ["Full Name"]
  /\ getBestMatch Sample.full_name_asha "Full Name" = Ok (VStr "Asha")
  /\ nth_error headers 2 = Some "Full Name"
  /\ exists row w',
       mappedValues Sample.E_offline Sample.full_name_asha Sample.empty_world
       = (Ok row, w')
       /\ nth_error row 2 = Some (VStr "")
       /\ nth_error row 2 <> Some (VStr "Asha").
Proof.
  repeat split.
  eexists. eexists. split; [vm_compute; reflexivity |].
  split; [reflexivity | cbn; discriminate].
Qed.

Lemma output_row_cells_on_asha :
  nullish Sample.asha = false
  /\ exists row w',
       mappedValues Sample.E_offline Sample.asha Sample.empty_world = (Ok row, w')
       /\ nth_error headers 2 = Some "Full Name"
       /\ nth_error row 2 = Some (VStr "Asha")
       /\ Forall (fun cell => cell <> VUndefined) row.
Proof.
  split; [reflexivity |].
  destruct (output_row_cells Sample.E_offline Sample.asha Sample.empty_world eq_refl)
    as [row [w' [Hrun [Hcells Hdef]]]].
  exists row, w'. split; [exact Hrun |].
  destruct (Hcells 2%nat "name" ["Full Name"; "Name"; "name"] eq_refl) as [Hh Hc].
  split; [exact Hh |]. split; [exact Hc | exact Hdef].
Defined.

(** ** The field mapper *)

(** C7 as the specification states it fails on a header that names a
    member of [Object.prototype]: no key of the empty record matches, the
    resolution order of the specification gives unresolved, and the program
    returns the inherited member. *)
Lemma inherited_member_is_resolved :
  own_keys (VObj []) = []
  /\ spec_getBestMatch [] "constructor" = VUndefined
  /\ getBestMatch (VObj []) "constructor" = Ok (VNative "constructor")
  /\ getBestMatch (VObj []) "constructor" <> Ok (spec_getBestMatch [] "constructor").
Proof.
  repeat split. vm_compute. discriminate.
Qed.

Lemma getBestMatch_resolution_on_asha :
  inherited "Full Name" = VUndefined
  /\ Forall (fun p : string * value => snd p <> VUndefined) [ ("name", VStr "Asha") ]
  /\ getBestMatch Sample.asha "Full Name"
     = Ok (spec_getBestMatch [ ("name", VStr "Asha") ] "Full Name")
  /\ spec_getBestMatch [ ("name", VStr "Asha") ] "Full Name" = VStr "Asha".
Proof.
  assert (H : Forall (fun p : string * value => snd p <> VUndefined)
                     [ ("name", VStr "Asha") ])
    by (repeat constructor; discriminate).
  split; [reflexivity |]. split; [exact H |].
  split; [| reflexivity].
  exact (getBestMatch_resolution [ ("name", VStr "Asha") ] "Full Name" eq_refl H).
Defined.

(** ** The token store *)

Lemma token_freshness_at_boundary :
  truthy (tokens_in_use Sample.JSON_parse Sample.E_offline
            (Sample.with_tokens Sample.boundary_tokens None)) = true
  /\ get (tokens_in_use Sample.JSON_parse Sample.E_offline
            (Sample.with_tokens Sample.boundary_tokens None)) "expires_at"
     = VNum (Sample.ticking 0 + 60000)
  /\ expired Sample.StringToNumber (Sample.ticking 0) Sample.boundary_tokens = Ok true
  /\ exists r w',
       getValidAccessToken Sample.JSON_parse Sample.StringToNumber Sample.E_offline
         (Sample.with_tokens Sample.boundary_tokens None) = (r, w')
       /\ sent w' = [ refresh_request Sample.E_offline Sample.boundary_tokens ].
Proof.
  assert (H1 : truthy (tokens_in_use Sample.JSON_parse Sample.E_offline
                         (Sample.with_tokens Sample.boundary_tokens None)) = true)
    by reflexivity.
  assert (H2 : get (tokens_in_use Sample.JSON_parse Sample.E_offline
                      (Sample.with_tokens Sample.boundary_tokens None)) "expires_at"
               = VNum 1700000060000)
    by reflexivity.
  destruct (token_freshness Sample.JSON_parse Sample.StringToNumber Sample.E_offline
              (Sample.with_tokens Sample.boundary_tokens None) 1700000060000 H1 H2)
    as [_ [_ [Hboundary [Hrefresh _]]]].
  split; [exact H1 |]. split; [exact H2 |].
  split; [exact (Hboundary eq_refl) |].
  apply Hrefresh. vm_compute. discriminate.
Defined.

Lemma token_store_failures_offline :
  getValidAccessToken Sample.JSON_parse Sample.StringToNumber Sample.E_offline
    Sample.empty_world
  = (Throw no_auth, Sample.empty_world)
  /\ (exists w',
        getValidAccessToken Sample.JSON_parse Sample.StringToNumber Sample.E_offline_grant
          (Sample.with_tokens Sample.stale_tokens None)
        = (Throw Sample.refresh_error, w')
        /\ tokens_json w' = None
        /\ getValidAccessToken Sample.JSON_parse Sample.StringToNumber
             Sample.E_offline_grant w'
           = exchange_grant_code Sample.StringToNumber Sample.E_offline_grant w')
  /\ (exists w1,
        getValidAccessToken Sample.JSON_parse Sample.StringToNumber Sample.E_offline
          (Sample.with_tokens Sample.stale_tokens None)
        = (Throw Sample.refresh_error, w1)
        /\ tokens_json w1 = tokens_json (Sample.with_tokens Sample.stale_tokens None)).
Proof.
  split; [| split].
  - destruct (token_store_failures Sample.JSON_parse Sample.StringToNumber
                Sample.E_offline Sample.empty_world) as [Hnone _].
    exact (Hnone eq_refl eq_refl eq_refl).
  - destruct (token_store_failures Sample.JSON_parse Sample.StringToNumber
                Sample.E_offline_grant (Sample.with_tokens Sample.stale_tokens None))
      as [_ [Hgrant _]].
    destruct (Hgrant (Error "Network Error")
                (snd (refresh_steps Sample.StringToNumber Sample.E_offline_grant
                        Sample.stale_tokens
                        (tick (Sample.with_tokens Sample.stale_tokens None))))
                eq_refl eq_refl eq_refl eq_refl eq_refl)
      as [w' [Hrun [Hgone Hnext]]].
    exists w'. split; [exact Hrun |]. split; [exact Hgone |]. exact (Hnext eq_refl).
  - destruct (token_store_failures Sample.JSON_parse Sample.StringToNumber
                Sample.E_offline (Sample.with_tokens Sample.stale_tokens None))
      as [_ [_ Hdirect]].
    eexists.
    exact (Hdirect (Error "Network Error")
             (snd (refresh_steps Sample.StringToNumber Sample.E_offline
                     Sample.stale_tokens
                     (tick (Sample.with_tokens Sample.stale_tokens None))))
             eq_refl eq_refl eq_refl eq_refl).
Defined.

(** C5 as the specification states it fails when a standing refresh
    credential is configured next to the grant code: the failed refresh
    deletes the token file, but the next request does not fall back to
    the exchange; it makes a record from the standing credential and
    sends a second refresh call, and the exchange call is never sent.  It
    fails as well when the storage refuses the deletion: the token file
    is kept and the error of the storage is thrown in place of the
    refresh failure. *)
Lemma standing_credential_preempts_exchange :
  truthy (ZOHO_GRANT_CODE Sample.E_offline_both) = true
  /\ truthy (ZOHO_REFRESH_TOKEN Sample.E_offline_both) = true
  /\ (exists w' w'',
        getValidAccessToken Sample.JSON_parse Sample.StringToNumber Sample.E_offline_both
          (Sample.with_tokens Sample.stale_tokens None)
        = (Throw Sample.refresh_error, w')
        /\ tokens_json w' = None
        /\ getValidAccessToken Sample.JSON_parse Sample.StringToNumber
             Sample.E_offline_both w'
           = (Throw Sample.refresh_error, w'')
        /\ sent w''
           = [ refresh_request Sample.E_offline_both Sample.stale_tokens;
               refresh_request Sample.E_offline_both Sample.standing_record ]
        /\ exchange_grant_code Sample.StringToNumber Sample.E_offline_both w'
           = (Throw auth_failed, called (exchange_request Sample.E_offline_both) w')
        /\ getValidAccessToken Sample.JSON_parse Sample.StringToNumber
             Sample.E_offline_both w'
           <> exchange_grant_code Sample.StringToNumber Sample.E_offline_both w')
  /\ truthy (ZOHO_GRANT_CODE Sample.E_offline_grant_undeletable) = true
  /\ (exists w1,
        getValidAccessToken Sample.JSON_parse Sample.StringToNumber
          Sample.E_offline_grant_undeletable
          (Sample.with_tokens Sample.stale_tokens None)
        = (Throw (Error "EPERM: operation not permitted, unlink"), w1)
        /\ tokens_json w1 = Some (JSON_stringify 2 Sample.stale_tokens)
        /\ sent w1
           = [ refresh_request Sample.E_offline_grant_undeletable Sample.stale_tokens ]).
Proof.
  split; [reflexivity |]. split; [reflexivity |]. split; [| split; [reflexivity |]].
  - eexists. eexists. split; [vm_compute; reflexivity |].
    split; [reflexivity |]. split; [vm_compute; reflexivity |].
    split; [reflexivity |]. split; [reflexivity |].
    vm_compute. discriminate.
  - eexists. split; [vm_compute; reflexivity |]. split; reflexivity.
Qed.

(** ** The request handler *)

(** C4 as the specification states it fails on the first submission: with
    no log file yet, the handler answers 200 with zoho failure and the log
    gains two lines, the header line and the data row. *)
Lemma first_submission_logs_two_lines :
  Sample.JSON_parse Sample.asha_body = Ok Sample.asha
  /\ exists resp w',
       server Sample.JSON_parse Sample.StringToNumber Sample.E_offline
         (Sample.save Sample.asha_body) Sample.empty_world = (Ok resp, w')
       /\ resp = saved (VStr "failure")
       /\ line_count (bookings_csv Sample.empty_world) = 0%nat
       /\ line_count (bookings_csv w') = 2%nat
       /\ line_count (bookings_csv w')
          <> (line_count (bookings_csv Sample.empty_world) + 1)%nat.
Proof.
  split; [reflexivity |].
  eexists. eexists. split; [vm_compute; reflexivity |].
  repeat split. cbn. discriminate.
Qed.

(** The scenario of the specification: the stored token is expired, no
    grant code is configured and the refresh call fails, on a log file that
    exists. *)
Lemma remote_failure_is_soft_offline :
  Sample.asha_body <> ""
  /\ Sample.JSON_parse Sample.asha_body = Ok Sample.asha
  /\ fs_fault Sample.E_offline Append CSV_FILE = None
  /\ exists w2,
       appendToZohoSheet Sample.JSON_parse Sample.StringToNumber Sample.E_offline
         Sample.asha
         (logged (csv_quote "Asha" ++ NL)
            (Sample.with_tokens Sample.stale_tokens (Some ("name" ++ NL))))
       = (Ok (failure Sample.refresh_error), w2)
       /\ on_end Sample.JSON_parse Sample.StringToNumber Sample.E_offline
            Sample.asha_body
            (Sample.with_tokens Sample.stale_tokens (Some ("name" ++ NL)))
          = (Ok (saved (VStr "failure")), w2)
       /\ bookings_csv w2 = Some ("name" ++ NL ++ csv_quote "Asha" ++ NL).
Proof.
  assert (Hb : Sample.asha_body <> "") by (vm_compute; discriminate).
  split; [exact Hb |]. split; [reflexivity |]. split; [reflexivity |].
  destruct (remote_failure_is_soft Sample.JSON_parse Sample.StringToNumber
              Sample.E_offline Sample.asha_body Sample.asha
              (csv_quote "Asha" ++ NL)
              (Sample.with_tokens Sample.stale_tokens (Some ("name" ++ NL)))
              Hb eq_refl eq_refl eq_refl eq_refl)
    as [Hfail _].
  destruct (Hfail Sample.refresh_error
              (snd (append_steps Sample.JSON_parse Sample.StringToNumber
                      Sample.E_offline Sample.asha
                      (logged (csv_quote "Asha" ++ NL)
                         (Sample.with_tokens Sample.stale_tokens
                            (Some ("name" ++ NL))))))
              eq_refl)
    as [Hz Ho].
  eexists. split; [exact Hz |]. split; [exact Ho |]. reflexivity.
Defined.

(** C8 as the specification states it fails when the log cannot be
    written: the server does not let the error escape, it answers 400 with
    the message of the error. *)
Lemma log_append_error_is_answered :
  fs_fault Sample.E_read_only_log Append CSV_FILE
  = Some (Error "EROFS: read-only file system")
  /\ server Sample.JSON_parse Sample.StringToNumber Sample.E_read_only_log
       (Sample.save Sample.asha_body) Sample.empty_world
     = (Ok (rejected (Error "EROFS: read-only file system")), Sample.empty_world)
  /\ statusCode (rejected (Error "EROFS: read-only file system")) = 400
  /\ forall e w',
       server Sample.JSON_parse Sample.StringToNumber Sample.E_read_only_log
         (Sample.save Sample.asha_body) Sample.empty_world
       <> (Throw e, w').
Proof.
  assert (H : server Sample.JSON_parse Sample.StringToNumber Sample.E_read_only_log
                (Sample.save Sample.asha_body) Sample.empty_world
              = (Ok (rejected (Error "EROFS: read-only file system")),
                 Sample.empty_world))
    by (vm_compute; reflexivity).
  split; [reflexivity |]. split; [exact H |]. split; [reflexivity |].
  intros e w'. rewrite H. discriminate.
Qed.

Lemma log_failure_is_handled_read_only :
  Sample.asha_body <> ""
  /\ Sample.JSON_parse Sample.asha_body = Ok Sample.asha
  /\ fs_fault Sample.E_read_only_log Append CSV_FILE
     = Some (Error "EROFS: read-only file system")
  /\ on_end Sample.JSON_parse Sample.StringToNumber Sample.E_read_only_log
       Sample.asha_body Sample.empty_world
     = (Ok (rejected (Error "EROFS: read-only file system")), Sample.empty_world).
Proof.
  assert (Hb : Sample.asha_body <> "") by (vm_compute; discriminate).
  split; [exact Hb |]. split; [reflexivity |]. split; [reflexivity |].
  exact (proj1 (log_failure_is_handled Sample.JSON_parse Sample.StringToNumber
                  Sample.E_read_only_log Sample.asha_body Sample.asha
                  ("name" ++ NL ++ csv_quote "Asha" ++ NL)
                  (Error "EROFS: read-only file system") Sample.empty_world
                  Hb eq_refl eq_refl eq_refl eq_refl)).
Defined.

(** C10 as stated fails on the body [null]: the parser accepts it, the
    value is not an object, and the answer is 400. *)
Lemma null_body_is_rejected :
  Sample.JSON_parse "null" = Ok VNull
  /\ server Sample.JSON_parse Sample.StringToNumber Sample.E_offline
       (Sample.save "null") Sample.empty_world
     = (Ok (rejected (Error "Cannot read properties of null (reading 'name')")),
        Sample.empty_world)
  /\ statusCode (rejected (Error "Cannot read properties of null (reading 'name')"))
     = 400.
Proof. repeat split. Qed.

Lemma non_object_bodies_on_five :
  "5" <> ""
  /\ Sample.JSON_parse "5" = Ok (VNum 5)
  /\ scalar (VNum 5) = true
  /\ exists zohoRes w',
       on_end Sample.JSON_parse Sample.StringToNumber Sample.E_offline "5"
         Sample.empty_world
       = (Ok (saved (get zohoRes "status")), w').
Proof.
  assert (Hb : "5" <> "") by discriminate.
  split; [exact Hb |]. split; [reflexivity |]. split; [reflexivity |].
  exact (proj1 (non_object_bodies Sample.JSON_parse Sample.StringToNumber
                  Sample.E_offline "5" (VNum 5) Sample.empty_world Hb eq_refl)
           eq_refl eq_refl).
Defined.

(** ** The header check *)

(** C6 as the specification states it fails on a response in which a
    returned row holds the cell [Date] after another cell: the scan reads
    the first cell of each row only, does not find the header, and the
    payload starts with the header line. *)
Lemma date_in_second_cell_is_not_seen :
  existsb (fun cell => is_string "Date" (opt_prop cell "content"))
          [ Sample.cell "x"; Sample.cell "Date" ] = true
  /\ headerFound Sample.StringToNumber
       (Sample.sheet_rows [ [ Sample.cell "x"; Sample.cell "Date" ] ]) = Ok false
  /\ exists r w',
       appendToZohoSheet Sample.JSON_parse Sample.StringToNumber
         (Sample.E_sheet (Sample.sheet_rows [ [ Sample.cell "x"; Sample.cell "Date" ] ]))
         Sample.asha (Sample.with_tokens Sample.fresh_tokens None) = (r, w')
       /\ sent w'
          = [ check_call
                (Sample.E_sheet
                   (Sample.sheet_rows [ [ Sample.cell "x"; Sample.cell "Date" ] ]))
                "token-1";
              append_call
                (Sample.E_sheet
                   (Sample.sheet_rows [ [ Sample.cell "x"; Sample.cell "Date" ] ]))
                "token-1" (headers_line ++ NL ++ Sample.asha_line) ].
Proof.
  split; [reflexivity |]. split; [reflexivity |].
  eexists. eexists. split; [reflexivity |]. vm_compute. reflexivity.
Qed.

Lemma header_row_iff_on_sheet_with_header :
  (exists prefix, checkUrl Sample.E_offline = prefix ++ "&range=A1:A10")
  /\ headerFound Sample.StringToNumber (Sample.sheet_rows [ []; [ Sample.cell "Date" ] ])
     = Ok true
  /\ exists r w',
       appendToZohoSheet Sample.JSON_parse Sample.StringToNumber
         (Sample.E_sheet (Sample.sheet_rows [ []; [ Sample.cell "Date" ] ]))
         Sample.asha (Sample.with_tokens Sample.fresh_tokens None) = (r, w')
       /\ sent w'
          = [ check_call (Sample.E_sheet (Sample.sheet_rows [ []; [ Sample.cell "Date" ] ]))
                "token-1";
              append_call (Sample.E_sheet (Sample.sheet_rows [ []; [ Sample.cell "Date" ] ]))
                "token-1" Sample.asha_line ].
Proof.
  destruct (header_row_iff Sample.JSON_parse Sample.StringToNumber
              (Sample.E_sheet (Sample.sheet_rows [ []; [ Sample.cell "Date" ] ]))
              Sample.asha (Sample.with_tokens Sample.fresh_tokens None))
    as [_ [Hrun Hscan]].
  split; [| split].
  - exact (proj1 (header_row_iff Sample.JSON_parse Sample.StringToNumber
                    Sample.E_offline Sample.asha Sample.empty_world)).
  - refine (Hscan (Sample.sheet_rows [ []; [ Sample.cell "Date" ] ]) _ [] eq_refl eq_refl _).
    repeat constructor; eexists; eexists; reflexivity.
  - exact (Hrun (VStr "token-1")
             (tick (Sample.with_tokens Sample.fresh_tokens None))
             (row_of Sample.asha (Sample.ticking 1))
             (tick (tick (Sample.with_tokens Sample.fresh_tokens None)))
             "token-1"
             (Sample.sheet_rows [ []; [ Sample.cell "Date" ] ])
             true Sample.asha_line
             eq_refl eq_refl eq_refl eq_refl eq_refl eq_refl).
Defined.

(** ** Further runs: the field mapper and the row *)

Lemma every_alias_resolves_on_asha :
  In ("name", ["Full Name"; "Name"; "name"]) FIELD_MAPPINGS
  /\ In "Name" ["Full Name"; "Name"; "name"]
  /\ getBestMatch Sample.asha "Name" = Ok (VStr "Asha").
Proof.
  assert (Hin : In ("name", ["Full Name"; "Name"; "name"]) FIELD_MAPPINGS)
    by (right; right; left; reflexivity).
  assert (Ha : In "Name" ["Full Name"; "Name"; "name"])
    by (right; left; reflexivity).
  split; [exact Hin |]. split; [exact Ha |].
  refine (every_alias_resolves [ ("name", VStr "Asha") ] "name"
            ["Full Name"; "Name"; "name"] "Name" (VStr "Asha") Hin Ha _ _ eq_refl).
  - repeat constructor; discriminate.
  - apply Forall_cons; [| apply Forall_nil]. right; right; left; reflexivity.
Defined.

Lemma row_agrees_with_mapper_on_asha :
  nth_error FIELD_MAPPINGS 2 = Some ("name", ["Full Name"; "Name"; "name"])
  /\ exists header row w',
       nth_error headers 2 = Some header
       /\ mappedValues Sample.E_offline Sample.asha Sample.empty_world = (Ok row, w')
       /\ nth_error row 2 = Some (VStr "Asha")
       /\ getBestMatch Sample.asha header = Ok (VStr "Asha").
Proof.
  split; [reflexivity |].
  refine (row_agrees_with_mapper Sample.E_offline [ ("name", VStr "Asha") ]
            Sample.empty_world 2 "name" ["Full Name"; "Name"; "name"] (VStr "Asha")
            eq_refl _ _ eq_refl eq_refl).
  - repeat constructor; discriminate.
  - apply Forall_cons; [| apply Forall_nil]. right; right; left; reflexivity.
Defined.

Lemma csv_lines_read_back_on_commas :
  csv_line [ VStr "a,b"; VNum 5 ] = Ok (csv_quote "a,b" ++ "," ++ csv_quote "5")
  /\ exists texts,
       rmap to_string [ VStr "a,b"; VNum 5 ] = Ok texts
       /\ csv_fields (csv_quote "a,b" ++ "," ++ csv_quote "5") = Some texts
       /\ length texts = 2%nat.
Proof.
  split; [reflexivity |].
  exact (proj1 csv_lines_read_back [ VStr "a,b"; VNum 5 ]
           (csv_quote "a,b" ++ "," ++ csv_quote "5") eq_refl).
Defined.

(** ** Further runs: the token store *)

Lemma exchange_returns_token_on_service :
  truthy (tokens_in_use Sample.JSON_parse (Sample.E_service VNull) Sample.empty_world)
  = false
  /\ respond (Sample.E_service VNull) (exchange_request (Sample.E_service VNull))
     = Ok Sample.token_data
  /\ exists w',
       getValidAccessToken Sample.JSON_parse Sample.StringToNumber
         (Sample.E_service VNull) Sample.empty_world
       = (Ok (VStr "token-2"), w')
       /\ sent w' = [ exchange_request (Sample.E_service VNull) ]
       /\ tokens_json w'
          = Some (JSON_stringify 2
                    (exchanged Sample.token_data (Sample.ticking 0) (Some 3600)))
       /\ bookings_csv w' = None.
Proof.
  split; [reflexivity |]. split; [reflexivity |].
  exact (exchange_returns_token Sample.JSON_parse Sample.StringToNumber
           (Sample.E_service VNull) Sample.token_data (Some 3600) Sample.empty_world
           eq_refl eq_refl eq_refl eq_refl eq_refl eq_refl).
Defined.

Lemma exchange_failure_is_reported_offline :
  truthy (ZOHO_GRANT_CODE Sample.E_offline_grant) = true
  /\ getValidAccessToken Sample.JSON_parse Sample.StringToNumber Sample.E_offline_grant
       Sample.empty_world
     = (Throw auth_failed,
        called (exchange_request Sample.E_offline_grant) Sample.empty_world).
Proof.
  split; [reflexivity |].
  refine (exchange_failure_is_reported Sample.JSON_parse Sample.StringToNumber
            Sample.E_offline_grant Sample.empty_world eq_refl eq_refl _).
  left. exists (Error "Network Error"). reflexivity.
Defined.

Lemma refresh_returns_token_on_service :
  expired Sample.StringToNumber (Sample.ticking 0) Sample.stale_tokens = Ok true
  /\ exists tokens w',
       getValidAccessToken Sample.JSON_parse Sample.StringToNumber
         (Sample.E_service VNull) (Sample.with_tokens Sample.stale_tokens None)
       = (Ok (VStr "token-2"), w')
       /\ tokens = Sample.renewed_tokens
       /\ get tokens "refresh_token" = VStr "refresh-1"
       /\ sent w' = [ refresh_request (Sample.E_service VNull) Sample.stale_tokens ]
       /\ tokens_json w' = Some (JSON_stringify 2 tokens).
Proof.
  split; [reflexivity |].
  destruct (refresh_returns_token Sample.JSON_parse Sample.StringToNumber
              (Sample.E_service VNull)
              [ ("access_token", VStr "token-1");
                ("refresh_token", VStr "refresh-1");
                ("expires_at", VNum 1700000030000) ]
              Sample.token_data (Some 3600)
              (Sample.with_tokens Sample.stale_tokens None)
              eq_refl eq_refl eq_refl eq_refl eq_refl eq_refl)
    as [tokens [w' [Hrun [Htok [_ [Hkeep [_ [Hsent Hfile]]]]]]]].
  exists tokens, w'. split; [exact Hrun |]. split; [exact Htok |].
  split; [exact Hkeep |]. split; [exact Hsent | exact Hfile].
Defined.

Lemma missing_expiry_is_refreshed_on_standing_credential :
  -60000 <= Sample.ticking 0
  /\ truthy (ZOHO_REFRESH_TOKEN Sample.E_offline_refresh) = true
  /\ exists r w',
       getValidAccessToken Sample.JSON_parse Sample.StringToNumber
         Sample.E_offline_refresh Sample.empty_world = (r, w')
       /\ sent w'
          = [ axios_post_params (token_url Sample.E_offline_refresh)
                [ ("refresh_token", VStr "refresh-0");
                  ("client_id", VStr "client");
                  ("client_secret", VStr "secret");
                  ("grant_type", VStr "refresh_token") ] ].
Proof.
  assert (Hclock : -60000 <= Sample.ticking 0) by (vm_compute; discriminate).
  split; [exact Hclock |]. split; [reflexivity |].
  exact (proj2 (missing_expiry_is_refreshed Sample.JSON_parse Sample.StringToNumber
                  Sample.E_offline_refresh Sample.empty_world Hclock)
           eq_refl eq_refl).
Defined.

Lemma second_request_reuses_token_on_service :
  Sample.JSON_parse_tokens (JSON_stringify 2 Sample.renewed_tokens)
  = Ok Sample.renewed_tokens
  /\ Sample.ticking 2 < Sample.ticking 1 + 3600 * 1000 - 60000
  /\ exists w'',
       two_token_requests Sample.JSON_parse_tokens Sample.StringToNumber
         (Sample.E_service VNull) (Sample.with_tokens Sample.stale_tokens None)
       = (Ok (VStr "token-2", VStr "token-2"), w'')
       /\ sent w'' = [ refresh_request (Sample.E_service VNull) Sample.stale_tokens ].
Proof.
  assert (Hclock : Sample.ticking 2 < Sample.ticking 1 + 3600 * 1000 - 60000)
    by reflexivity.
  split; [reflexivity |]. split; [exact Hclock |].
  exact (second_request_reuses_token Sample.JSON_parse_tokens Sample.StringToNumber
           (Sample.E_service VNull)
           [ ("access_token", VStr "token-1");
             ("refresh_token", VStr "refresh-1");
             ("expires_at", VNum 1700000030000) ]
           Sample.token_data 3600
           (Sample.with_tokens Sample.stale_tokens None)
           eq_refl eq_refl eq_refl eq_refl eq_refl eq_refl eq_refl eq_refl Hclock).
Defined.

(** ** Further runs: the sheet and the handler *)

Lemma empty_sheet_gets_header_on_first_use :
  get (Sample.sheet_rows []) "range_details" = VArr [] []
  /\ exists r w',
       appendToZohoSheet Sample.JSON_parse Sample.StringToNumber
         (Sample.E_sheet (Sample.sheet_rows []))
         Sample.asha (Sample.with_tokens Sample.fresh_tokens None) = (r, w')
       /\ sent w'
          = [ check_call (Sample.E_sheet (Sample.sheet_rows [])) "token-1";
              append_call (Sample.E_sheet (Sample.sheet_rows [])) "token-1"
                (headers_line ++ NL ++ Sample.asha_line) ].
Proof.
  split; [reflexivity |].
  refine (empty_sheet_gets_header Sample.JSON_parse Sample.StringToNumber
            (Sample.E_sheet (Sample.sheet_rows []))
            Sample.asha (VStr "token-1")
            (Sample.with_tokens Sample.fresh_tokens None)
            (tick (Sample.with_tokens Sample.fresh_tokens None))
            (tick (tick (Sample.with_tokens Sample.fresh_tokens None)))
            (row_of Sample.asha (Sample.ticking 1))
            "token-1" (Sample.sheet_rows []) Sample.asha_line
            eq_refl eq_refl eq_refl eq_refl eq_refl _ eq_refl).
  right. exists []. reflexivity.
Defined.

Lemma remote_status_is_passed_on_success :
  Sample.asha_body <> ""
  /\ Sample.JSON_parse Sample.asha_body = Ok Sample.asha
  /\ exists w2,
       on_end Sample.JSON_parse Sample.StringToNumber (Sample.E_sheet (Sample.sheet_rows []))
         Sample.asha_body (Sample.with_tokens Sample.fresh_tokens (Some ("name" ++ NL)))
       = (Ok (saved (VStr "success")), w2).
Proof.
  assert (Hb : Sample.asha_body <> "") by (vm_compute; discriminate).
  split; [exact Hb |]. split; [reflexivity |].
  eexists.
  exact (proj1 (remote_status_is_passed_on Sample.JSON_parse Sample.StringToNumber
                  (Sample.E_sheet (Sample.sheet_rows [])) Sample.asha_body Sample.asha
                  (csv_quote "Asha" ++ NL)
                  (VObj [ ("status", VStr "success") ])
                  (Sample.with_tokens Sample.fresh_tokens (Some ("name" ++ NL)))
                  (snd (append_steps Sample.JSON_parse Sample.StringToNumber
                          (Sample.E_sheet (Sample.sheet_rows [])) Sample.asha
                          (logged (csv_quote "Asha" ++ NL)
                             (Sample.with_tokens Sample.fresh_tokens
                                (Some ("name" ++ NL))))))
                  Hb eq_refl eq_refl eq_refl eq_refl eq_refl)).
Defined.

Lemma unreadable_body_is_rejected_on_brace :
  "{" <> ""
  /\ Sample.JSON_parse "{" = Throw (Error "Unexpected token in JSON")
  /\ on_end Sample.JSON_parse Sample.StringToNumber Sample.E_offline "{"
       Sample.empty_world
     = (Ok (rejected (Error "Unexpected token in JSON")), Sample.empty_world)
  /\ on_end Sample.JSON_parse Sample.StringToNumber Sample.E_offline ""
       Sample.empty_world
     = (Ok (rejected (Error "Empty request body")), Sample.empty_world).
Proof.
  assert (Hb : "{" <> "") by discriminate.
  split; [exact Hb |]. split; [reflexivity |]. split.
  - exact (proj2 (unreadable_body_is_rejected Sample.JSON_parse Sample.StringToNumber
                    Sample.E_offline "{" Sample.empty_world)
             (Error "Unexpected token in JSON") Hb eq_refl).
  - exact (proj1 (unreadable_body_is_rejected Sample.JSON_parse Sample.StringToNumber
                    Sample.E_offline "" Sample.empty_world)
             eq_refl).
Defined.

Lemma log_header_is_written_once_on_asha :
  Sample.asha_body <> ""
  /\ Sample.JSON_parse Sample.asha_body = Ok Sample.asha
  /\ exists first second w'',
       two_submissions Sample.JSON_parse Sample.StringToNumber Sample.E_offline
         Sample.asha_body Sample.asha_body Sample.empty_world
       = (Ok (first, second), w'')
       /\ statusCode first = 200
       /\ statusCode second = 200
       /\ bookings_csv w''
          = Some ("name" ++ NL ++ (csv_quote "Asha" ++ NL) ++ (csv_quote "Asha" ++ NL)).
Proof.
  assert (Hb : Sample.asha_body <> "") by (vm_compute; discriminate).
  split; [exact Hb |]. split; [reflexivity |].
  exact (log_header_is_written_once Sample.JSON_parse Sample.StringToNumber
           Sample.E_offline Sample.asha_body Sample.asha_body Sample.asha Sample.asha
           (csv_quote "Asha" ++ NL) (csv_quote "Asha" ++ NL) Sample.empty_world
           eq_refl eq_refl Hb eq_refl eq_refl eq_refl Hb eq_refl eq_refl eq_refl).
Defined.

Lemma no_credentials_logs_locally_on_asha :
  Sample.asha_body <> ""
  /\ Sample.JSON_parse Sample.asha_body = Ok Sample.asha
  /\ on_end Sample.JSON_parse Sample.StringToNumber Sample.E_offline Sample.asha_body
       Sample.empty_world
     = (Ok (saved (VStr "failure")),
        logged ("name" ++ NL ++ csv_quote "Asha" ++ NL) Sample.empty_world)
  /\ sent (logged ("name" ++ NL ++ csv_quote "Asha" ++ NL) Sample.empty_world) = [].
Proof.
  assert (Hb : Sample.asha_body <> "") by (vm_compute; discriminate).
  split; [exact Hb |]. split; [reflexivity |].
  destruct (no_credentials_logs_locally Sample.JSON_parse Sample.StringToNumber
              Sample.E_offline Sample.asha_body Sample.asha
              ("name" ++ NL ++ csv_quote "Asha" ++ NL) Sample.empty_world
              eq_refl eq_refl eq_refl Hb eq_refl eq_refl eq_refl eq_refl)
    as [Hrun [_ [Hsent _]]].
  split; [exact Hrun | exact Hsent].
Defined.
